(** * MicroSpot control core: calibration, stability monitor, balance, gait

    A shallow embedding of the control core of the MicroSpot quadruped
    (src/microspot_app.py, src/stability_monitor.py, src/balance.py,
    src/gait.py, src/trajectory.py) and the properties its specification
    states about it.

    Numbers.  Python integers are [Z].  In the stability monitor (floats
    are compared, negated and subtracted) and in the stand-height
    computation (an integer times a float constant, then [int(...)]) a
    Python float is a binary64 value of the kernel ([float], IEEE 754, the
    format of a Python float), so those definitions run bit for bit.  The
    balance controller and the gait's leg-angle computations take their
    values from the C math library ([math.atan2], [math.sqrt], [math.sin],
    [math.cos]), for which there is nothing to compute with: there a float
    is a real number [R], and rounding, overflow and NaN are left out.
    What is stated of those definitions are the expressions and branches
    the code takes, bounds, and equalities between values the code
    computes by the same operations; an equality that needs exact algebra
    ([sin PI = 0], [n * v / n = v]) is not stated, since the rounded
    values differ in the last place.  The easing function of the gait is
    given both ways: over [R], and on binary64 with the C library's cosine
    as a parameter, which shows that difference at smooth(0.5). *)

From Stdlib Require Import ZArith List Bool Lia Reals Lra.
From Stdlib Require Floats Uint63.
From stdpp Require Import gmap strings.
Import ListNotations.

(** ** Python built-ins on integers *)

(** [max(a, b)] keeps its first argument unless the second is greater. *)
Definition py_max (a b : Z) : Z := if (a <? b)%Z then b else a.

(** [min(a, b)] keeps its first argument unless the second is smaller. *)
Definition py_min (a b : Z) : Z := if (b <? a)%Z then b else a.

(** The four legs, keys of [QUAD_CONFIG] and of the gait's tables. *)
Inductive Leg : Type := FL | FR | RL | RR.

#[global] Instance Leg_eq_dec : EqDecision Leg.
Proof. solve_decision. Defined.

Definition all_legs : list Leg := [FL; FR; RL; RR].

(** * Calibration profile and the servo write port (microspot_app.py) *)
Module Calibration.

Local Open Scope Z_scope.

(** [QUAD_CONFIG[leg]["name"]] and [QUAD_CONFIG[leg]["channels"]]. *)
Definition quad_name (l : Leg) : string :=
  match l with
  | FL => "Front Left" | FR => "Front Right"
  | RL => "Rear Left" | RR => "Rear Right"
  end.

Definition quad_channels (l : Leg) : list Z :=
  match l with
  | FL => [0; 1; 2] | FR => [3; 4; 5]
  | RL => [6; 7; 8] | RR => [9; 10; 11]
  end.

(** One entry of [CalibrationProfile.servos]. *)
Record ServoCalibration : Type := mkServo {
  channel : Z;
  leg : Leg;
  joint : string;
  label : string;
  offset : Z;
  direction : Z;
  neutral_angle : Z;
  min_angle : Z;
  max_angle : Z;
  safe_angle : Z;
  calibrated : bool;
  notes : string
}.

Record CalibrationProfile : Type := mkProfile {
  version : string;
  profile_calibrated : bool;
  servos : gmap Z ServoCalibration
}.

Definition joint_names : list string := ["hip"; "knee"; "ankle"].

(** [str.title()] on ASCII text: a letter that follows a non-letter goes to
    upper case, every other letter to lower case. *)
Fixpoint title_from (after_letter : bool) (s : string) : string :=
  match s with
  | EmptyString => EmptyString
  | String c s' =>
      let n := Ascii.nat_of_ascii c in
      let upper := ((65 <=? n) && (n <=? 90))%nat in
      let lower := ((97 <=? n) && (n <=? 122))%nat in
      let c' :=
        if after_letter
        then if upper then Ascii.ascii_of_nat (n + 32) else c
        else if lower then Ascii.ascii_of_nat (n - 32) else c in
      String c' (title_from (upper || lower) s')
  end.

Definition title (s : string) : string := title_from false s.

(** The record [__init__] stores for one joint of one leg. *)
Definition default_servo (l : Leg) (joint_name : string) (ch : Z)
  : ServoCalibration :=
  {| channel := ch; leg := l; joint := joint_name;
     label := quad_name l +:+ " " +:+ title joint_name;
     offset := 0; direction := 1; neutral_angle := 90;
     min_angle := 0; max_angle := 180; safe_angle := 90;
     calibrated := false; notes := "" |}.

(** The inner loop of [__init__]: [enumerate(config["channels"])]. *)
Definition init_leg (l : Leg) (m : gmap Z ServoCalibration)
  : gmap Z ServoCalibration :=
  fold_left
    (fun acc '(joint_name, ch) => <[ch := default_servo l joint_name ch]> acc)
    (combine joint_names (quad_channels l)) m.

(** [CalibrationProfile.__init__]. *)
Definition CalibrationProfile_init : CalibrationProfile :=
  {| version := "1.1";
     profile_calibrated := false;
     servos := fold_left (fun acc l => init_leg l acc) all_legs ∅ |}.

(** [CalibrationProfile.apply_to_angle]. *)
Definition apply_to_angle (self : CalibrationProfile) (ch angle : Z) : Z :=
  match servos self !! ch with
  | None => angle
  | Some servo =>
      let delta := angle - 90 in
      let calibrated := neutral_angle servo + direction servo * delta in
      py_max (min_angle servo) (py_min (max_angle servo) calibrated)
  end.

(** [CalibrationProfile.is_fully_calibrated]. *)
Definition is_fully_calibrated (self : CalibrationProfile) : bool :=
  forallb (fun '(_, s) => calibrated s)
    (filter (fun '(_, s) => bool_decide (channel s < 12))
       (map_to_list (servos self))).

(** The spec's [clamp(x, lo, hi)]. *)
Definition clamp (x lo hi : Z) : Z := Z.max lo (Z.min hi x).

(** ** The servo write port *)

(** A servo object of the driver ([adafruit_motor.servo.Servo]): assigning
    its [angle] sends a PWM command, or raises on an I2C fault. *)
Record Servo : Type := mkSrv {
  srv_raises : bool
}.

(** The module globals [set_servo] reads and writes, and the commands that
    reached the actuators, oldest first, as (channel, angle).  A key of
    [servos] is the string [f"{leg_id}_{i}"]; it is kept here as the pair
    it is split into, in insertion order. *)
Record World : Type := mkWorld {
  servo_angles : gmap Z Z;
  calibration : option CalibrationProfile;
  HW : bool;
  hw_servos : list ((Leg * nat) * Servo);
  issued : list (Z * Z)
}.

(** The angle [set_servo] holds in [actual_angle] when it reaches the
    hardware section: calibrated or not, then clamped to the servo range. *)
Definition actual_angle (w : World) (ch angle : Z) (apply_offset : bool) : Z :=
  let a :=
    match apply_offset, calibration w with
    | true, Some cal => apply_to_angle cal ch angle
    | _, _ => angle
    end in
  py_max 0 (py_min 180 a).

(** Outcome of the loop over [servos.items()]. *)
Inductive WriteResult : Type :=
| Written
| NoMatch
| Raised.

(** The [for key, srv in servos.items()] loop: it stops at the first servo
    whose configured channel is [ch]. *)
Fixpoint write_first (srvs : list ((Leg * nat) * Servo)) (ch : Z)
  : WriteResult :=
  match srvs with
  | [] => NoMatch
  | ((leg_id, joint_idx), srv) :: rest =>
      match nth_error (quad_channels leg_id) joint_idx with
      | None => Raised
      | Some c =>
          if (c =? ch)
          then if srv_raises srv then Raised else Written
          else write_first rest ch
      end
  end.

(** [set_servo(channel, angle, apply_offset=True)]. *)
Definition set_servo (w : World) (ch angle : Z) (apply_offset : bool)
  : World * bool :=
  let w1 := {| servo_angles := <[ch := angle]> (servo_angles w);
               calibration := calibration w;
               HW := HW w;
               hw_servos := hw_servos w;
               issued := issued w |} in
  let a := actual_angle w ch angle apply_offset in
  if negb (HW w) then (w1, true)
  else match write_first (hw_servos w) ch with
       | Written =>
           ({| servo_angles := servo_angles w1;
               calibration := calibration w1;
               HW := HW w1;
               hw_servos := hw_servos w1;
               issued := issued w1 ++ [(ch, a)] |}, true)
       | NoMatch => (w1, false)
       | Raised => (w1, false)
       end.

(** A caller's sequence of [set_servo(channel, angle, apply_offset)]. *)
Fixpoint set_servos (w : World) (cs : list (Z * Z * bool)) : World :=
  match cs with
  | [] => w
  | (ch, angle, apply_offset) :: rest =>
      set_servos (fst (set_servo w ch angle apply_offset)) rest
  end.

(** [init_servos] on a machine with the PCA9685 board: one servo object per
    joint, none of them faulty. *)
Definition init_servos_hw : list ((Leg * nat) * Servo) :=
  flat_map (fun l => map (fun i => ((l, i), {| srv_raises := false |}))
                       (seq 0 3)) all_legs.

(** A command is within the physical range of the servo. *)
Definition in_servo_range (c : Z * Z) : Prop := 0 <= snd c <= 180.

(** ** Callers of the write port *)

(** [range(12)]. *)
Definition range12 : list Z := map Z.of_nat (seq 0 12).

(** [goto_calibrated_neutrals]: every channel goes to its saved neutral
    angle, raw ([apply_offset=False]); 90 where nothing is saved. *)
Definition goto_calibrated_neutrals (w : World) : World :=
  match calibration w with
  | None =>
      fold_left (fun w ch => fst (set_servo w ch 90 false)) range12 w
  | Some cal =>
      fold_left
        (fun w ch =>
           match servos cal !! ch with
           | Some s => fst (set_servo w ch (neutral_angle s) false)
           | None => fst (set_servo w ch 90 false)
           end) range12 w
  end.

(** [leg_id in QUAD_CONFIG], with the key found. *)
Definition leg_of_id (leg_id : string) : option Leg :=
  if decide (leg_id = "FL") then Some FL
  else if decide (leg_id = "FR") then Some FR
  else if decide (leg_id = "RL") then Some RL
  else if decide (leg_id = "RR") then Some RR
  else None.

(** [set_leg(leg_id, angles)]: [zip] stops at the shorter of the leg's
    channels and [angles]; a failed joint does not stop the others. *)
Definition set_leg (w : World) (leg_id : string) (angles : list Z)
  : World * bool :=
  match leg_of_id leg_id with
  | None => (w, false)
  | Some l =>
      fold_left
        (fun (acc : World * bool) (ca : Z * Z) =>
           let '(w, success) := acc in
           let '(w', ok) := set_servo w (fst ca) (snd ca) true in
           (w', if ok then success else false))
        (combine (quad_channels l) angles) (w, true)
  end.

(** The loop of [set_servo] reached [srv.angle = actual_angle]. *)
Definition is_written (r : WriteResult) : bool :=
  match r with Written => true | NoMatch | Raised => false end.

(** The calls [set_leg] makes for a leg and a list of angles. *)
Definition leg_calls (l : Leg) (angles : list Z) : list (Z * Z * bool) :=
  map (fun ca : Z * Z => (fst ca, snd ca, true))
    (combine (quad_channels l) angles).

(** A robot whose board is present and whose twelve servos answer. *)
Definition healthy (w : World) : Prop :=
  HW w = true /\ hw_servos w = init_servos_hw.

(** What [goto_calibrated_neutrals] sends to a channel. *)
Definition neutral_of (w : World) (ch : Z) : Z :=
  match calibration w with
  | None => 90
  | Some cal =>
      match servos cal !! ch with
      | Some s => neutral_angle s
      | None => 90
      end
  end.

(** ** Auxiliary definitions: what the statements below name *)

(** A knee whose saved neutral (135) lies beyond its upper limit (120). *)
Definition knee_beyond_limit : ServoCalibration :=
  {| channel := 1; leg := FL; joint := "knee"; label := "Front Left Knee";
     offset := 45; direction := 1; neutral_angle := 135;
     min_angle := 0; max_angle := 120; safe_angle := 90;
     calibrated := true; notes := "" |}.

Definition profile_beyond_limit : CalibrationProfile :=
  {| version := version CalibrationProfile_init;
     profile_calibrated := false;
     servos := <[1 := knee_beyond_limit]> (servos CalibrationProfile_init) |}.

(** A robot with its twelve servos and a fresh calibration. *)
Definition robot0 : World :=
  {| servo_angles := ∅;
     calibration := Some CalibrationProfile_init;
     HW := true;
     hw_servos := init_servos_hw;
     issued := [] |}.

(** A robot whose front left knee is saved beyond its own limit. *)
Definition robot_beyond_limit : World :=
  {| servo_angles := ∅;
     calibration := Some profile_beyond_limit;
     HW := true;
     hw_servos := init_servos_hw;
     issued := [] |}.

End Calibration.

(** * Stability monitor (stability_monitor.py) *)
Module Stability.

Import Floats.
Local Open Scope float_scope.

(** [time.time()]: the wall clock is a sequence of readings, one consumed
    by each call. *)
Record Clock : Type := mkClock {
  readings : nat -> float;
  ticks : nat
}.

Definition time_time (c : Clock) : float * Clock :=
  (readings c (ticks c), {| readings := readings c; ticks := S (ticks c) |}).

(** A raised Python exception: whether it is an instance of [Exception]
    (what [except Exception] catches; [KeyboardInterrupt] and [SystemExit]
    are not), and its message. *)
Inductive PyExc : Type := Exc (is_Exception : bool) (msg : string).

(** How a call ends: it returns a value or raises. *)
Inductive Outcome (A : Type) : Type :=
| Return (a : A)
| Raise (e : PyExc).
Arguments Return {A} a.
Arguments Raise {A} e.

Inductive StabilityState : Type := STABLE | WARNING | CRITICAL | EMERGENCY.

#[global] Instance StabilityState_eq_dec : EqDecision StabilityState.
Proof. solve_decision. Defined.

Record StabilityThresholds : Type := mkThresholds {
  warning_pitch : float;
  warning_roll : float;
  critical_pitch : float;
  critical_roll : float;
  emergency_pitch : float;
  emergency_roll : float
}.

(** The dataclass defaults. *)
Definition StabilityThresholds_default : StabilityThresholds :=
  {| warning_pitch := 10.0; warning_roll := 10.0;
     critical_pitch := 20.0; critical_roll := 20.0;
     emergency_pitch := 30.0; emergency_roll := 30.0 |}.

(** A change listener, called with [(old_state, new_state, pitch, roll)]. *)
Definition Callback : Type :=
  StabilityState -> StabilityState -> float -> float -> Outcome unit.

Record StabilityMonitor : Type := mkMonitor {
  thresholds : StabilityThresholds;
  current_state : StabilityState;
  previous_state : StabilityState;
  last_check_time : float;
  pitch : float;
  roll : float;
  state_start_time : float;
  state_history : list (StabilityState * float);
  max_history_length : Z;
  _on_state_change_callbacks : list Callback
}.

(** [StabilityMonitor.__init__]. *)
Definition StabilityMonitor_init (th : option StabilityThresholds)
    (clk : Clock) : StabilityMonitor * Clock :=
  let '(t_check, clk) := time_time clk in
  let '(t_start, clk) := time_time clk in
  ({| thresholds := default StabilityThresholds_default th;
      current_state := STABLE;
      previous_state := STABLE;
      last_check_time := t_check;
      pitch := 0.0;
      roll := 0.0;
      state_start_time := t_start;
      state_history := [];
      max_history_length := 100;
      _on_state_change_callbacks := [] |}, clk).

(** The slice [l[start:]] of a Python list, for any integer [start]. *)
Definition py_slice_from {A : Type} (l : list A) (start : Z) : list A :=
  let n := Z.of_nat (length l) in
  let i := if (start <? 0)%Z then Z.max 0 (n + start) else Z.min start n in
  drop (Z.to_nat i) l.

(** The classification of [update], worst case first; [a > b] on floats
    is [b <? a]. *)
Definition classify (th : StabilityThresholds) (pitch roll : float)
  : StabilityState :=
  let abs_pitch := abs pitch in
  let abs_roll := abs roll in
  if (emergency_pitch th <? abs_pitch) || (emergency_roll th <? abs_roll)
  then EMERGENCY
  else if (critical_pitch th <? abs_pitch) || (critical_roll th <? abs_roll)
  then CRITICAL
  else if (warning_pitch th <? abs_pitch) || (warning_roll th <? abs_roll)
  then WARNING
  else STABLE.

(** The loop over the listeners at the end of [_handle_state_change]:
    an [Exception] is caught (and printed), anything else propagates. *)
Fixpoint notify (cbs : list Callback) (old new : StabilityState)
    (pitch roll : float) : Outcome unit :=
  match cbs with
  | [] => Return tt
  | callback :: rest =>
      match callback old new pitch roll with
      | Return _ => notify rest old new pitch roll
      | Raise (Exc true _) => notify rest old new pitch roll
      | Raise e => Raise e
      end
  end.

(** [StabilityMonitor._handle_state_change]. *)
Definition _handle_state_change (self : StabilityMonitor)
    (new_state : StabilityState) (clk : Clock)
  : Outcome unit * StabilityMonitor * Clock :=
  let prev := current_state self in
  let '(now, clk) := time_time clk in
  let time_in_state := now - state_start_time self in
  let hist := state_history self ++ [(prev, time_in_state)] in
  let hist :=
    if (max_history_length self <? Z.of_nat (length hist))%Z
    then py_slice_from hist (- max_history_length self)
    else hist in
  let '(start, clk) := time_time clk in
  let self' :=
    {| thresholds := thresholds self;
       current_state := new_state;
       previous_state := prev;
       last_check_time := last_check_time self;
       pitch := pitch self;
       roll := roll self;
       state_start_time := start;
       state_history := hist;
       max_history_length := max_history_length self;
       _on_state_change_callbacks := _on_state_change_callbacks self |} in
  (notify (_on_state_change_callbacks self) prev new_state
     (pitch self) (roll self), self', clk).

(** [StabilityMonitor.update]. *)
Definition update (self : StabilityMonitor) (pitch' roll' : float)
    (clk : Clock) : Outcome StabilityState * StabilityMonitor * Clock :=
  let '(now, clk) := time_time clk in
  let self :=
    {| thresholds := thresholds self;
       current_state := current_state self;
       previous_state := previous_state self;
       last_check_time := now;
       pitch := pitch';
       roll := roll';
       state_start_time := state_start_time self;
       state_history := state_history self;
       max_history_length := max_history_length self;
       _on_state_change_callbacks := _on_state_change_callbacks self |} in
  let new_state := classify (thresholds self) pitch' roll' in
  if bool_decide (new_state <> current_state self)
  then
    match _handle_state_change self new_state clk with
    | (Return _, self, clk) => (Return (current_state self), self, clk)
    | (Raise e, self, clk) => (Raise e, self, clk)
    end
  else (Return (current_state self), self, clk).

(** [StabilityMonitor.on_state_change]. *)
Definition on_state_change (self : StabilityMonitor) (callback : Callback)
  : StabilityMonitor :=
  {| thresholds := thresholds self;
     current_state := current_state self;
     previous_state := previous_state self;
     last_check_time := last_check_time self;
     pitch := pitch self;
     roll := roll self;
     state_start_time := state_start_time self;
     state_history := state_history self;
     max_history_length := max_history_length self;
     _on_state_change_callbacks :=
       _on_state_change_callbacks self ++ [callback] |}.

(** [StabilityMonitor.reset]. *)
Definition reset (self : StabilityMonitor) (clk : Clock)
  : StabilityMonitor * Clock :=
  let '(now, clk) := time_time clk in
  ({| thresholds := thresholds self;
      current_state := STABLE;
      previous_state := STABLE;
      last_check_time := last_check_time self;
      pitch := 0.0;
      roll := 0.0;
      state_start_time := now;
      state_history := [];
      max_history_length := max_history_length self;
      _on_state_change_callbacks := _on_state_change_callbacks self |}, clk).

(** [StabilityMonitor.is_stable], [needs_attention], [is_emergency]. *)
Definition is_stable (self : StabilityMonitor) : bool :=
  bool_decide (current_state self = STABLE).

Definition needs_attention (self : StabilityMonitor) : bool :=
  bool_decide (current_state self <> STABLE).

Definition is_emergency (self : StabilityMonitor) : bool :=
  bool_decide (current_state self = EMERGENCY).

(** A caller's use of a monitor: a sequence of method calls.  A caller that
    survives an exception out of [update] goes on with the same object. *)
Inductive Call : Type :=
| CallUpdate (pitch roll : float)
| CallReset
| CallOnStateChange (callback : Callback).

Definition call (c : Call) (self : StabilityMonitor) (clk : Clock)
  : StabilityMonitor * Clock :=
  match c with
  | CallUpdate p r => let '(_, self, clk) := update self p r clk in (self, clk)
  | CallReset => reset self clk
  | CallOnStateChange cb => (on_state_change self cb, clk)
  end.

Fixpoint run (cs : list Call) (self : StabilityMonitor) (clk : Clock)
  : StabilityMonitor * Clock :=
  match cs with
  | [] => (self, clk)
  | c :: rest => let '(self, clk) := call c self clk in run rest self clk
  end.

(** A listener outcome that [except Exception] lets through. *)
Definition propagates {A : Type} (o : Outcome A) : bool :=
  match o with
  | Raise (Exc false _) => true
  | _ => false
  end.

(** Every listener returns or raises an [Exception]. *)
Definition listeners_raise_only_Exception (cbs : list Callback) : Prop :=
  Forall (fun cb : Callback =>
            forall old new p r, propagates (cb old new p r) = false) cbs.

(** The last [n] entries of a list. *)
Definition last_entries {A : Type} (n : nat) (l : list A) : list A :=
  drop (length l - n) l.

(** ** Auxiliary definitions: what the statements below name *)

(** [|angle| > threshold], the comparison [update] makes. *)
Definition exceeds (angle threshold : float) : Prop :=
  (threshold <? abs angle) = true.

(** The clock after one reading. *)
Definition tick (clk : Clock) : Clock := snd (time_time clk).

(** The reading the next [time.time()] returns. *)
Definition now (clk : Clock) : float := fst (time_time clk).

(** The monitor [_handle_state_change] leaves. *)
Definition changed (self : StabilityMonitor) (new_state : StabilityState)
    (clk : Clock) : StabilityMonitor :=
  snd (fst (_handle_state_change self new_state clk)).

(** The monitor after [update], whatever its listeners do. *)
Definition updated (self : StabilityMonitor) (p r : float) (clk : Clock)
  : StabilityMonitor :=
  snd (fst (update self p r clk)).

(** The monitor as [update] has it once the readings are stored. *)
Definition stored (self : StabilityMonitor) (p r : float) (clk : Clock)
  : StabilityMonitor :=
  {| thresholds := thresholds self;
     current_state := current_state self;
     previous_state := previous_state self;
     last_check_time := now clk;
     pitch := p;
     roll := r;
     state_start_time := state_start_time self;
     state_history := state_history self;
     max_history_length := max_history_length self;
     _on_state_change_callbacks := _on_state_change_callbacks self |}.

(** The monitor [__init__] builds on a clock that always reads zero. *)
Definition clock0 : Clock := {| readings := fun _ => 0; ticks := 0 |}.
Definition monitor0 : StabilityMonitor :=
  fst (StabilityMonitor_init None clock0).

(** A listener that raises an [Exception] at every change. *)
Definition failing_listener : Callback :=
  fun _ _ _ _ => Raise (Exc true "listener failed").

(** What the capacity leaves untouched. *)
Definition bounded (self : StabilityMonitor) : Prop :=
  max_history_length self = 100%Z
  /\ (length (state_history self) <= 100)%nat.

(** A full history: the transition drops its oldest entry and appends the
    state left, so the length stays 100. *)
Definition full_monitor : StabilityMonitor :=
  {| thresholds := thresholds monitor0;
     current_state := WARNING;
     previous_state := STABLE;
     last_check_time := 0;
     pitch := 12;
     roll := 0;
     state_start_time := 0;
     state_history := (EMERGENCY, 1) :: replicate 99 (STABLE, 2);
     max_history_length := 100;
     _on_state_change_callbacks := [] |}.

(** Fields a same-state [update] leaves alone. *)
Definition same_dwell (self self' : StabilityMonitor) : Prop :=
  state_history self' = state_history self
  /\ state_start_time self' = state_start_time self
  /\ current_state self' = current_state self
  /\ thresholds self' = thresholds self.

(** Readings that all classify to the state the monitor is in. *)
Definition all_in_state (self : StabilityMonitor)
    (samples : list (float * float)) : Prop :=
  Forall (fun s => classify (thresholds self) (fst s) (snd s)
                   = current_state self) samples.




(** The same monitor with other listeners. *)
Definition with_listeners (self : StabilityMonitor) (cbs : list Callback)
  : StabilityMonitor :=
  {| thresholds := thresholds self;
     current_state := current_state self;
     previous_state := previous_state self;
     last_check_time := last_check_time self;
     pitch := pitch self;
     roll := roll self;
     state_start_time := state_start_time self;
     state_history := state_history self;
     max_history_length := max_history_length self;
     _on_state_change_callbacks := cbs |}.

(** A listener that raises [KeyboardInterrupt] at every change. *)
Definition interrupting_listener : Callback :=
  fun _ _ _ _ => Raise (Exc false "KeyboardInterrupt").

(** How bad a state is. *)
Definition severity (s : StabilityState) : nat :=
  match s with
  | STABLE => 0 | WARNING => 1 | CRITICAL => 2 | EMERGENCY => 3
  end.

End Stability.

(** * Balance controller (balance.py) *)
Module Balance.

Local Open Scope R_scope.

(** [a < b] on Python numbers, as a boolean. *)
Definition ltb (a b : R) : bool := if Rlt_dec a b then true else false.

(** [math.atan2(y, x)] on the reals: the angle of the point [(x, y)], in
    radians, in the interval from [-PI] (excluded) to [PI].  The reals have
    one zero: on the negative x axis, where [math.atan2] answers pi for
    y = 0.0 and -pi for y = -0.0, this function answers [PI]. *)
Definition atan2 (y x : R) : R :=
  if Rlt_dec 0 x then atan (y / x)
  else if Rlt_dec x 0
       then if Rle_dec 0 y then atan (y / x) + PI else atan (y / x) - PI
       else if Rlt_dec 0 y then PI / 2
            else if Rlt_dec y 0 then - (PI / 2) else 0.

(** The dictionary [get_accel_data()] returns: keys ['x'], ['y'], ['z']. *)
Record Accel : Type := mkAccel {
  ax : R;
  ay : R;
  az : R
}.

(** How one [get_accel_data()] ends: a sample, or an exception (I2C). *)
Inductive Reading : Type :=
| Sample (accel : Accel)
| ReadError.

(** The [mpu6050] object: the readings it will deliver, one per call. *)
Record Imu : Type := mkImu {
  samples : nat -> Reading;
  reads : nat
}.

Definition get_accel_data (dev : Imu) : Reading * Imu :=
  (samples dev (reads dev), {| samples := samples dev; reads := S (reads dev) |}).

Record BalanceController : Type := mkBalance {
  imu : option Imu;
  simulation_mode : bool;
  pitch_offset : R;
  roll_offset : R;
  kp : R;
  pitch_gain : R;
  roll_gain : R;
  _last_pitch : R;
  _last_roll : R;
  _last_raw_pitch : R;
  _last_raw_roll : R;
  _alpha : R
}.

(** The same controller with another sensor object. *)
Definition with_imu (self : BalanceController) (dev : option Imu)
  : BalanceController :=
  {| imu := dev;
     simulation_mode := simulation_mode self;
     pitch_offset := pitch_offset self;
     roll_offset := roll_offset self;
     kp := kp self;
     pitch_gain := pitch_gain self;
     roll_gain := roll_gain self;
     _last_pitch := _last_pitch self;
     _last_roll := _last_roll self;
     _last_raw_pitch := _last_raw_pitch self;
     _last_raw_roll := _last_raw_roll self;
     _alpha := _alpha self |}.

(** The same controller with other last-known-good raw angles. *)
Definition with_last_raw (self : BalanceController) (p r : R)
  : BalanceController :=
  {| imu := imu self;
     simulation_mode := simulation_mode self;
     pitch_offset := pitch_offset self;
     roll_offset := roll_offset self;
     kp := kp self;
     pitch_gain := pitch_gain self;
     roll_gain := roll_gain self;
     _last_pitch := _last_pitch self;
     _last_roll := _last_roll self;
     _last_raw_pitch := p;
     _last_raw_roll := r;
     _alpha := _alpha self |}.

(** The same controller with other filtered angles. *)
Definition with_last (self : BalanceController) (p r : R)
  : BalanceController :=
  {| imu := imu self;
     simulation_mode := simulation_mode self;
     pitch_offset := pitch_offset self;
     roll_offset := roll_offset self;
     kp := kp self;
     pitch_gain := pitch_gain self;
     roll_gain := roll_gain self;
     _last_pitch := p;
     _last_roll := r;
     _last_raw_pitch := _last_raw_pitch self;
     _last_raw_roll := _last_raw_roll self;
     _alpha := _alpha self |}.

(** The warm-up reads of [__init__]: stops at the first exception. *)
Fixpoint warmup (n : nat) (dev : Imu) : bool * Imu :=
  match n with
  | O => (true, dev)
  | S n' =>
      match get_accel_data dev with
      | (Sample _, dev') => warmup n' dev'
      | (ReadError, dev') => (false, dev')
      end
  end.

(** [BalanceController.__init__]: [device] is what [mpu6050(address)]
    constructs, [None] when it raises. *)
Definition BalanceController_init (MPU_AVAILABLE : bool) (device : option Imu)
  : BalanceController :=
  let '(dev, sim) :=
    if MPU_AVAILABLE
    then match device with
         | Some d => let '(ok, d') := warmup 3 d in (Some d', negb ok)
         | None => (None, true)
         end
    else (None, true) in
  {| imu := dev;
     simulation_mode := sim;
     pitch_offset := 0;
     roll_offset := 0;
     kp := 0.5;
     pitch_gain := 1;
     roll_gain := 1;
     _last_pitch := 0;
     _last_roll := 0;
     _last_raw_pitch := 0;
     _last_raw_roll := 0;
     _alpha := 0.25 |}.

(** The bad-reading test of [_read_raw_angles]. *)
Definition bad_reading (accel : Accel) : bool :=
  ltb (Rabs (ax accel)) 0.01 && ltb (Rabs (ay accel)) 0.01
  && ltb (Rabs (az accel)) 0.01.

(** [BalanceController._read_raw_angles]. *)
Definition _read_raw_angles (self : BalanceController)
  : (R * R) * BalanceController :=
  match simulation_mode self, imu self with
  | false, Some dev =>
      let '(reading, dev') := get_accel_data dev in
      let self := with_imu self (Some dev') in
      match reading with
      | ReadError => ((_last_raw_pitch self, _last_raw_roll self), self)
      | Sample accel =>
          if bad_reading accel
          then ((_last_raw_pitch self, _last_raw_roll self), self)
          else
            let pitch :=
              atan2 (ay accel) (sqrt (ax accel ^ 2 + az accel ^ 2)) * 57.2958 in
            let roll := atan2 (- ax accel) (az accel) * 57.2958 in
            ((pitch, roll), with_last_raw self pitch roll)
      end
  | _, _ => ((0, 0), self)
  end.

(** [BalanceController.get_angles]. *)
Definition get_angles (self : BalanceController)
  : (R * R) * BalanceController :=
  let '((raw_pitch, raw_roll), self) := _read_raw_angles self in
  let pitch := (raw_pitch - pitch_offset self) * pitch_gain self in
  let roll := (raw_roll - roll_offset self) * roll_gain self in
  let pitch := _alpha self * pitch + (1 - _alpha self) * _last_pitch self in
  let roll := _alpha self * roll + (1 - _alpha self) * _last_roll self in
  ((pitch, roll), with_last self pitch roll).

(** [BalanceController.get_correction]: the dictionary it returns, as a
    function of its four keys. *)
Definition get_correction (self : BalanceController)
  : (Leg -> R) * BalanceController :=
  let '((pitch, roll), self) := get_angles self in
  let corrections (l : Leg) : R :=
    match l with
    | FL => - pitch * kp self - roll * kp self * 0.5
    | FR => - pitch * kp self + roll * kp self * 0.5
    | RL => - pitch * kp self * 0.5 - roll * kp self * 0.5
    | RR => - pitch * kp self * 0.5 + roll * kp self * 0.5
    end in
  (corrections, self).

(** [BalanceController.is_available]. *)
Definition is_available (self : BalanceController) : bool :=
  negb (simulation_mode self) && bool_decide (is_Some (imu self)).

(** A sensor object that delivers [r] at every read. *)
Definition imu_reading (r : Reading) : Imu :=
  {| samples := fun _ => r; reads := 0 |}.

(** The sensor object after [n] reads. *)
Fixpoint get_accel_data_n (n : nat) (dev : Imu) : Imu :=
  match n with
  | O => dev
  | S n' => get_accel_data_n n' (snd (get_accel_data dev))
  end.

(** ** Auxiliary definitions: what the statements below name *)

(** A controller on a sensor that keeps delivering [accel], with
    last-good raw angles 1.5 and -2 from an earlier reading. *)
Definition controller_on (accel : Accel) : BalanceController :=
  with_last_raw
    (BalanceController_init true (Some (imu_reading (Sample accel))))
    1.5 (-2).

Definition glitch : Accel := {| ax := 0.001; ay := 0.001; az := 0.001 |}.
Definition level : Accel := {| ax := 0; ay := 0; az := 9.8 |}.

(** ** Gain, calibration *)

(** [max(a, b)] and [min(a, b)] on floats. *)
Definition Rpy_max (a b : R) : R := if Rlt_dec a b then b else a.
Definition Rpy_min (a b : R) : R := if Rlt_dec b a then b else a.

(** The same controller with another gain. *)
Definition with_kp (self : BalanceController) (k : R) : BalanceController :=
  {| imu := imu self;
     simulation_mode := simulation_mode self;
     pitch_offset := pitch_offset self;
     roll_offset := roll_offset self;
     kp := k;
     pitch_gain := pitch_gain self;
     roll_gain := roll_gain self;
     _last_pitch := _last_pitch self;
     _last_roll := _last_roll self;
     _last_raw_pitch := _last_raw_pitch self;
     _last_raw_roll := _last_raw_roll self;
     _alpha := _alpha self |}.

(** [BalanceController.set_kp]. *)
Definition set_kp (self : BalanceController) (k : R) : BalanceController :=
  with_kp self (Rpy_max 0 (Rpy_min 2 k)).

(** The same controller with other calibration offsets. *)
Definition with_offsets (self : BalanceController) (p r : R)
  : BalanceController :=
  {| imu := imu self;
     simulation_mode := simulation_mode self;
     pitch_offset := p;
     roll_offset := r;
     kp := kp self;
     pitch_gain := pitch_gain self;
     roll_gain := roll_gain self;
     _last_pitch := _last_pitch self;
     _last_roll := _last_roll self;
     _last_raw_pitch := _last_raw_pitch self;
     _last_raw_roll := _last_raw_roll self;
     _alpha := _alpha self |}.

(** The sampling loop of [calibrate]: [n] readings added to the sums. *)
Fixpoint calibrate_loop (n : nat) (self : BalanceController)
    (pitch_sum roll_sum : R) : (R * R) * BalanceController :=
  match n with
  | O => ((pitch_sum, roll_sum), self)
  | S n' =>
      let '((p, r), self) := _read_raw_angles self in
      calibrate_loop n' self (pitch_sum + p) (roll_sum + r)
  end.

(** [BalanceController.calibrate(samples)]; [None] is the
    [ZeroDivisionError] of [pitch_sum / samples]. *)
Definition calibrate (self : BalanceController) (samples : Z)
  : option BalanceController :=
  if simulation_mode self then Some (with_offsets self 0 0)
  else
    let '((pitch_sum, roll_sum), self) :=
      calibrate_loop (Z.to_nat samples) self 0 0 in
    if (samples =? 0)%Z then None
    else Some (with_offsets self (pitch_sum / IZR samples)
                 (roll_sum / IZR samples)).

(** The controller after [n] calls of [get_angles]. *)
Fixpoint get_angles_n (n : nat) (self : BalanceController)
  : BalanceController :=
  match n with
  | O => self
  | S n' => get_angles_n n' (snd (get_angles self))
  end.

(** The raw angles of a sample, as [_read_raw_angles] computes them. *)
Definition raw_pitch (accel : Accel) : R :=
  atan2 (ay accel) (sqrt (ax accel ^ 2 + az accel ^ 2)) * 57.2958.

Definition raw_roll (accel : Accel) : R :=
  atan2 (- ax accel) (az accel) * 57.2958.

(** The calibrated reading [get_angles] filters towards. *)
Definition target_pitch (self : BalanceController) (raw : R) : R :=
  (raw - pitch_offset self) * pitch_gain self.

Definition target_roll (self : BalanceController) (raw : R) : R :=
  (raw - roll_offset self) * roll_gain self.

(** How often the sensor object of a controller has been read. *)
Definition imu_reads (self : BalanceController) : nat :=
  match imu self with
  | Some dev => reads dev
  | None => 0%nat
  end.

(** A controller without a sensor whose filter holds the angles [p] and
    [r]: its next [get_angles] gives 0.75 of each. *)
Definition tilted (p r : R) : BalanceController :=
  with_last (BalanceController_init false None) p r.

(** A robot lying on its side: gravity along the y axis. *)
Definition on_its_side : Accel := {| ax := 0; ay := 9.8; az := 0 |}.

(** A sensor that answers its first three reads (the warm-up) with a
    level sample and raises at every read after them. *)
Definition flaky_imu : Imu :=
  {| samples := fun n => if (n <? 3)%nat
                         then Sample {| ax := 0; ay := 0; az := 9.8 |}
                         else ReadError;
     reads := 0 |}.

(** A controller on that sensor, with last-good raw angles 1.5 and -2. *)
Definition controller_flaky : BalanceController :=
  with_last_raw (BalanceController_init true (Some flaky_imu)) 1.5 (-2).

End Balance.

(** * Gait controller (gait.py) *)
Module Gait.

Import Floats.
Local Open Scope R_scope.
Local Set Warnings "-inexact-float".

(** ** Python numbers *)

(** An [int] used in float arithmetic (exact below [2^53] in magnitude). *)
Definition float_of_int (z : Z) : float :=
  if (z <? 0)%Z
  then PrimFloat.opp (PrimFloat.of_uint63 (Uint63.of_Z (- z)))
  else PrimFloat.of_uint63 (Uint63.of_Z z).

(** [int(f)] on a float: truncation toward zero; it raises on an infinity
    or a NaN ([None]). *)
Definition py_int (f : float) : option Z :=
  match Prim2SF f with
  | S754_zero _ => Some 0%Z
  | S754_finite s m e =>
      let v := if (0 <=? e)%Z then (Z.pos m * 2 ^ e)%Z
               else (Z.pos m / 2 ^ (- e))%Z in
      Some (if s then (- v)%Z else v)
  | S754_infinity _ => None
  | S754_nan => None
  end.

(** ** Gait constants *)

Definition DEFAULT_CYCLE_TIME : R := 1.
Definition DEFAULT_KNEE_BEND : Z := 40.
Definition DEFAULT_ANKLE_COMPENSATION : float := 1.3%float.
Definition KNEE_FORWARD_RATIO : R := 0.7.
Definition ANKLE_FORWARD_RATIO : R := 0.3.
Definition ANKLE_LIFT_RATIO : R := 0.8.
Definition HIP_SWING_ANGLE : R := 0.
Definition LATERAL_STEP_ANGLE : R := 15.
Definition DEFAULT_IK_STEP_HEIGHT : R := 0.03.
Definition DEFAULT_IK_STRIDE_LENGTH : R := 0.04.

(** The dictionary of gait parameters; [None] is Python's [None]. *)
Record GaitParams : Type := mkParams {
  cycle_time : R;
  step_height : option R;
  step_length : option R;
  speed : R;
  rear_lift_boost : R;
  ik_step_height : R;
  ik_stride_length : R
}.

Definition DEFAULT_GAIT_PARAMS : GaitParams :=
  {| cycle_time := DEFAULT_CYCLE_TIME;
     step_height := None;
     step_length := None;
     speed := 1;
     rear_lift_boost := 6;
     ik_step_height := DEFAULT_IK_STEP_HEIGHT;
     ik_stride_length := DEFAULT_IK_STRIDE_LENGTH |}.

(** The logical angles of one leg in a stand pose (integers of degrees). *)
Record StandAngles : Type := mkStand {
  hip : Z;
  knee : Z;
  ankle : Z
}.

(** The angles a gait computation returns for one leg. *)
Record LegAngles : Type := mkAngles {
  hip_angle : R;
  knee_angle : R;
  ankle_angle : R
}.

(** The rear-leg tables [{"RL": ..., "RR": ...}]. *)
Record RearComp : Type := mkRear {
  comp_RL : Z;
  comp_RR : Z
}.

Record GaitController : Type := mkGait {
  params : GaitParams;
  direction : string;
  turn_rate : R;
  lateral_rate : R;
  _default_knee_bend : Z;
  _default_ankle_comp : Z;
  _rear_knee_comp : RearComp;
  _rear_ankle_comp : RearComp;
  stand_angles : Leg -> StandAngles
}.

(** The four stand poses both [__init__] and [set_stand_height] build. *)
Definition build_stand_angles (knee_angle ankle_angle : Z) (rear : RearComp)
    (l : Leg) : StandAngles :=
  match l with
  | FL => {| hip := 90; knee := knee_angle; ankle := ankle_angle |}
  | FR => {| hip := 90; knee := knee_angle; ankle := ankle_angle |}
  | RL => {| hip := 90; knee := knee_angle;
             ankle := ankle_angle + comp_RL rear |}
  | RR => {| hip := 90; knee := knee_angle;
             ankle := ankle_angle + comp_RR rear |}
  end.

(** [GaitController.__init__], the part that sets the gait state; [None]
    when an [int(...)] raises. *)
Definition GaitController_init : option GaitController :=
  let p := DEFAULT_GAIT_PARAMS in
  let rear_knee := {| comp_RL := -4; comp_RR := 5 |} in
  let rear_ankle := {| comp_RL := 0; comp_RR := 0 |} in
  ankle_comp ← py_int (float_of_int DEFAULT_KNEE_BEND
                        * DEFAULT_ANKLE_COMPENSATION)%float;
  auto_height ← py_int (float_of_int DEFAULT_KNEE_BEND * 0.9)%float;
  auto_length ← py_int (float_of_int DEFAULT_KNEE_BEND * 0.5)%float;
  Some
    {| params :=
         {| cycle_time := cycle_time p;
            step_height :=
              match step_height p with
              | None => Some (IZR auto_height)
              | h => h
              end;
            step_length :=
              match step_length p with
              | None => Some (IZR auto_length)
              | l => l
              end;
            speed := speed p;
            rear_lift_boost := rear_lift_boost p;
            ik_step_height := ik_step_height p;
            ik_stride_length := ik_stride_length p |};
       direction := "forward";
       turn_rate := 0;
       lateral_rate := 0;
       _default_knee_bend := DEFAULT_KNEE_BEND;
       _default_ankle_comp := ankle_comp;
       _rear_knee_comp := rear_knee;
       _rear_ankle_comp := rear_ankle;
       stand_angles :=
         build_stand_angles (90 - DEFAULT_KNEE_BEND) (90 + ankle_comp)
           rear_ankle |}.

(** [GaitController.set_stand_height]: the controller it leaves (the
    dictionary it returns is [stand_angles] of it); [None] when [int(...)]
    raises. *)
Definition set_stand_height (self : GaitController) (knee_bend : Z)
  : option GaitController :=
  let knee_bend := py_max 0 (py_min 80 knee_bend) in
  ankle_comp ← py_int (float_of_int knee_bend
                        * DEFAULT_ANKLE_COMPENSATION)%float;
  let knee_angle := (90 - knee_bend)%Z in
  let ankle_angle := (90 + ankle_comp)%Z in
  Some
    {| params := params self;
       direction := direction self;
       turn_rate := turn_rate self;
       lateral_rate := lateral_rate self;
       _default_knee_bend := _default_knee_bend self;
       _default_ankle_comp := _default_ankle_comp self;
       _rear_knee_comp := _rear_knee_comp self;
       _rear_ankle_comp := _rear_ankle_comp self;
       stand_angles :=
         build_stand_angles knee_angle ankle_angle (_rear_ankle_comp self) |}.

(** [GaitController.get_stand_angles]. *)
Definition get_stand_angles (self : GaitController) : Leg -> StandAngles :=
  stand_angles self.

(** [GaitController._smooth_phase], the formula over the real numbers. *)
Definition _smooth_phase (t : R) : R := (1 - cos (t * PI)) / 2.






(** [leg_id in ['FL', 'RL']]. *)
Definition is_left (l : Leg) : bool :=
  match l with FL | RL => true | FR | RR => false end.

(** The turn differential both leg computations apply to the stride. *)
Definition stride_mult (self : GaitController) (l : Leg) : R :=
  if is_left l then 1 - turn_rate self * 0.5 else 1 + turn_rate self * 0.5.

(** [-1.0 if self.direction == "backward" else 1.0]. *)
Definition dir_mult (self : GaitController) : R :=
  if bool_decide (direction self = "backward") then -1 else 1.

(** [GaitController._leg_angles_swing] (angle mode); [None] when a gait
    parameter is [None] and the arithmetic raises. *)
Definition _leg_angles_swing (self : GaitController) (phase : R) (leg_id : Leg)
  : option LegAngles :=
  step_h ← step_height (params self);
  step_l ← step_length (params self);
  let stand := stand_angles self leg_id in
  let lift_amount := step_h * sin (phase * PI) in
  let rear_lift_boost := 0 in
  let fwd := step_l * stride_mult self leg_id * dir_mult self
             * (phase * 2 - 1) in
  let knee_offset :=
    - (lift_amount + rear_lift_boost) + fwd * KNEE_FORWARD_RATIO in
  let ankle_offset :=
    lift_amount * ANKLE_LIFT_RATIO + fwd * ANKLE_FORWARD_RATIO in
  let hip_offset := HIP_SWING_ANGLE * (phase * 2 - 1) in
  let hip_offset :=
    if Req_dec_T (lateral_rate self) 0 then hip_offset
    else
      let lateral_amount :=
        LATERAL_STEP_ANGLE * lateral_rate self * sin (phase * PI) in
      if is_left leg_id then hip_offset + lateral_amount
      else hip_offset - lateral_amount in
  Some {| hip_angle := IZR (hip stand) + hip_offset;
          knee_angle := IZR (knee stand) + knee_offset;
          ankle_angle := IZR (ankle stand) + ankle_offset |}.

(** [GaitController._leg_angles_stance] (angle mode). *)
Definition _leg_angles_stance (self : GaitController) (phase : R)
    (leg_id : Leg) : option LegAngles :=
  step_l ← step_length (params self);
  let stand := stand_angles self leg_id in
  let fwd := step_l * stride_mult self leg_id * dir_mult self
             * (1 - phase * 2) in
  let knee_offset := fwd * KNEE_FORWARD_RATIO in
  let ankle_offset := fwd * ANKLE_FORWARD_RATIO in
  let hip_offset := HIP_SWING_ANGLE * (1 - phase * 2) in
  let hip_offset :=
    if Req_dec_T (lateral_rate self) 0 then hip_offset
    else
      let lateral_amount :=
        LATERAL_STEP_ANGLE * lateral_rate self * (1 - phase) in
      if is_left leg_id then hip_offset - lateral_amount
      else hip_offset + lateral_amount in
  Some {| hip_angle := IZR (hip stand) + hip_offset;
          knee_angle := IZR (knee stand) + knee_offset;
          ankle_angle := IZR (ankle stand) + ankle_offset |}.

(** The forward sweep of a swinging leg, [fwd] in [_leg_angles_swing]. *)
Definition swing_fwd (self : GaitController) (step_l phase : R) (l : Leg) : R :=
  step_l * stride_mult self l * dir_mult self * (phase * 2 - 1).


(** ** Auxiliary definitions: what the statements below name *)

(** ** Steering, interpolation, preview *)

(** The same controller with another turn rate. *)
Definition with_turn_rate (self : GaitController) (rate : R)
  : GaitController :=
  {| params := params self;
     direction := direction self;
     turn_rate := rate;
     lateral_rate := lateral_rate self;
     _default_knee_bend := _default_knee_bend self;
     _default_ankle_comp := _default_ankle_comp self;
     _rear_knee_comp := _rear_knee_comp self;
     _rear_ankle_comp := _rear_ankle_comp self;
     stand_angles := stand_angles self |}.

(** The same controller with another lateral rate. *)
Definition with_lateral_rate (self : GaitController) (rate : R)
  : GaitController :=
  {| params := params self;
     direction := direction self;
     turn_rate := turn_rate self;
     lateral_rate := rate;
     _default_knee_bend := _default_knee_bend self;
     _default_ankle_comp := _default_ankle_comp self;
     _rear_knee_comp := _rear_knee_comp self;
     _rear_ankle_comp := _rear_ankle_comp self;
     stand_angles := stand_angles self |}.

(** The same controller walking in another direction. *)
Definition with_direction (self : GaitController) (d : string)
  : GaitController :=
  {| params := params self;
     direction := d;
     turn_rate := turn_rate self;
     lateral_rate := lateral_rate self;
     _default_knee_bend := _default_knee_bend self;
     _default_ankle_comp := _default_ankle_comp self;
     _rear_knee_comp := _rear_knee_comp self;
     _rear_ankle_comp := _rear_ankle_comp self;
     stand_angles := stand_angles self |}.

(** [GaitController.set_turn_rate]. *)
Definition set_turn_rate (self : GaitController) (rate : R) : GaitController :=
  with_turn_rate self (Balance.Rpy_max (-1) (Balance.Rpy_min 1 rate)).

(** [GaitController.set_lateral_rate]. *)
Definition set_lateral_rate (self : GaitController) (rate : R)
  : GaitController :=
  with_lateral_rate self (Balance.Rpy_max (-1) (Balance.Rpy_min 1 rate)).

(** The interpolation state of the controller: [_current_angles] and
    [_interp_speed]. *)
Record Interpolation : Type := mkInterp {
  _current_angles : gmap Z R;
  _interp_speed : R
}.

(** [GaitController._interpolate]. *)
Definition _interpolate (st : Interpolation) (ch : Z) (target : R)
  : R * Interpolation :=
  match _current_angles st !! ch with
  | None =>
      (target, {| _current_angles := <[ch := target]> (_current_angles st);
                  _interp_speed := _interp_speed st |})
  | Some cur =>
      let new := cur + (target - cur) * _interp_speed st in
      (new, {| _current_angles := <[ch := new]> (_current_angles st);
               _interp_speed := _interp_speed st |})
  end.

(** [self.legs]: the channels of the hip, the knee and the ankle of a leg. *)
Definition leg_hip (l : Leg) : Z :=
  match l with FL => 0 | FR => 3 | RL => 6 | RR => 9 end.

Definition leg_knee (l : Leg) : Z :=
  match l with FL => 1 | FR => 4 | RL => 7 | RR => 10 end.

Definition leg_ankle (l : Leg) : Z :=
  match l with FL => 2 | FR => 5 | RL => 8 | RR => 11 end.

(** [GaitController.preview_stand], writing through the [set_servo] of
    microspot_app.py. *)
Definition preview_stand (self : GaitController) (w : Calibration.World)
  : Calibration.World :=
  fold_left
    (fun w leg_id =>
       let angles := stand_angles self leg_id in
       let w := fst (Calibration.set_servo w (leg_hip leg_id)
                       (hip angles) true) in
       let w := fst (Calibration.set_servo w (leg_knee leg_id)
                       (knee angles) true) in
       fst (Calibration.set_servo w (leg_ankle leg_id) (ankle angles) true))
    all_legs w.

(** The calls [preview_stand] makes, in order. *)
Definition stand_calls (self : GaitController) : list (Z * Z * bool) :=
  flat_map
    (fun l => [(leg_hip l, hip (stand_angles self l), true);
               (leg_knee l, knee (stand_angles self l), true);
               (leg_ankle l, ankle (stand_angles self l), true)])
    all_legs.

(** The side of a leg as a sign: left legs +1, right legs -1. *)
Definition lateral_sign (l : Leg) : R := if is_left l then 1 else -1.

(** The forward position of a standing leg, [fwd] in
    [_leg_angles_stance]. *)
Definition stance_fwd (self : GaitController) (step_l phase : R) (l : Leg)
  : R :=
  step_l * stride_mult self l * dir_mult self * (1 - phase * 2).

(** The gait parameters give a step height and a step length. *)
Definition stepping (self : GaitController) (step_h step_l : R) : Prop :=
  step_height (params self) = Some step_h
  /\ step_length (params self) = Some step_l.


(** The controller [__init__] builds: ankle compensation int(40*1.3) = 52,
    step height int(40*0.9) = 36, step length int(40*0.5) = 20. *)
Definition gait0 : GaitController :=
  {| params :=
       {| cycle_time := DEFAULT_CYCLE_TIME;
          step_height := Some (IZR 36);
          step_length := Some (IZR 20);
          speed := 1;
          rear_lift_boost := 6;
          ik_step_height := DEFAULT_IK_STEP_HEIGHT;
          ik_stride_length := DEFAULT_IK_STRIDE_LENGTH |};
     direction := "forward";
     turn_rate := 0;
     lateral_rate := 0;
     _default_knee_bend := 40;
     _default_ankle_comp := 52;
     _rear_knee_comp := {| comp_RL := -4; comp_RR := 5 |};
     _rear_ankle_comp := {| comp_RL := 0; comp_RR := 0 |};
     stand_angles :=
       build_stand_angles 50 142 {| comp_RL := 0; comp_RR := 0 |} |}.

(** The fixed rear-ankle correction of a leg (none for the front legs). *)
Definition rear_ankle_correction (self : GaitController) (l : Leg) : Z :=
  match l with
  | FL | FR => 0
  | RL => comp_RL (_rear_ankle_comp self)
  | RR => comp_RR (_rear_ankle_comp self)
  end.

(** [int(knee_bend * 1.3)] is [floor(13 * knee_bend / 10)] on the clamped
    range, checked value by value on the binary64 product. *)
Definition ankle_comp_ok (k : Z) : bool :=
  match py_int (PrimFloat.mul (float_of_int k) DEFAULT_ANKLE_COMPENSATION) with
  | Some v => (v =? 13 * k / 10)%Z
  | None => false
  end.

(** The controller [set_stand_height] leaves for a clamped knee bend. *)
Definition stand_at (self : GaitController) (bend : Z) : GaitController :=
  {| params := params self;
     direction := direction self;
     turn_rate := turn_rate self;
     lateral_rate := lateral_rate self;
     _default_knee_bend := _default_knee_bend self;
     _default_ankle_comp := _default_ankle_comp self;
     _rear_knee_comp := _rear_knee_comp self;
     _rear_ankle_comp := _rear_ankle_comp self;
     stand_angles :=
       build_stand_angles (90 - bend) (90 + 13 * bend / 10)
         (_rear_ankle_comp self) |}.

End Gait.

(** * Foot trajectory of the IK mode (trajectory.py) *)
Module Trajectory.

Local Open Scope R_scope.

(** The dataclass [TrajectoryConfig], in metres. *)
Record TrajectoryConfig : Type := mkConfig {
  step_height : R;
  stride_length : R
}.

Definition TrajectoryConfig_default : TrajectoryConfig :=
  {| step_height := 0.03; stride_length := 0.04 |}.

Record FootTrajectory : Type := mkTrajectory {
  config : TrajectoryConfig
}.

(** [FootTrajectory.__init__]: [config or TrajectoryConfig()]. *)
Definition FootTrajectory_init (c : option TrajectoryConfig) : FootTrajectory :=
  {| config := default TrajectoryConfig_default c |}.

(** [FootTrajectory.swing_position]: the foot as (x, y, z). *)
Definition swing_position (self : FootTrajectory)
    (phase neutral_x neutral_y neutral_z : R) : R * R * R :=
  let lift := step_height (config self) * sin (phase * PI) in
  let forward_offset := stride_length (config self) * (phase - 0.5) in
  (neutral_x + forward_offset, neutral_y + lift, neutral_z).

(** [FootTrajectory.stance_position]. *)
Definition stance_position (self : FootTrajectory)
    (phase neutral_x neutral_y neutral_z : R) : R * R * R :=
  let backward_offset := stride_length (config self) * (0.5 - phase) in
  (neutral_x + backward_offset, neutral_y, neutral_z).

(** The coordinates of a foot position. *)
Definition foot_x (p : R * R * R) : R := fst (fst p).
Definition foot_y (p : R * R * R) : R := snd (fst p).
Definition foot_z (p : R * R * R) : R := snd p.

End Trajectory.

(** * Properties *)

(** ** Python built-ins *)

Lemma py_max_spec (a b : Z) : py_max a b = Z.max a b.
Proof. unfold py_max. destruct (Z.ltb_spec a b); lia. Qed.

Lemma py_min_spec (a b : Z) : py_min a b = Z.min a b.
Proof. unfold py_min. destruct (Z.ltb_spec b a); lia. Qed.

(** Clamping into a non-empty interval lands in it. *)
Lemma py_clamp_bounds (lo hi x : Z) :
  (lo <= hi)%Z -> (lo <= py_max lo (py_min hi x) <= hi)%Z.
Proof. intros Hle. rewrite py_max_spec, py_min_spec. lia. Qed.


(** ** Calibration *)
Module CalibrationFacts.

Import Calibration.
Local Open Scope Z_scope.

(** The body of [apply_to_angle] on a known channel. *)
Lemma apply_to_angle_known (p : CalibrationProfile) (ch a : Z)
    (s : ServoCalibration) :
  servos p !! ch = Some s ->
  apply_to_angle p ch a
  = py_max (min_angle s)
      (py_min (max_angle s) (neutral_angle s + direction s * (a - 90))).
Proof. intros Hs. unfold apply_to_angle. rewrite Hs. reflexivity. Qed.

(** With ordered limits the clamp is the usual three-way case split. *)
Lemma clamp_cases (x lo hi : Z) :
  lo <= hi ->
  clamp x lo hi = if x <? lo then lo else if hi <? x then hi else x.
Proof.
  intros Hle. unfold clamp.
  destruct (Z.ltb_spec x lo); [lia|].
  destruct (Z.ltb_spec hi x); lia.
Qed.



(** The fresh profile knows channel 4 (front right knee) and not 12. *)
Lemma init_lookup_4 :
  servos CalibrationProfile_init !! 4 = Some (default_servo FR "knee" 4).
Proof. vm_compute. reflexivity. Qed.



(** The clamp at the end of [set_servo] holds for every input. *)
Lemma actual_angle_in_range (w : World) (ch angle : Z) (apply_offset : bool) :
  0 <= actual_angle w ch angle apply_offset <= 180.
Proof. unfold actual_angle. apply py_clamp_bounds. lia. Qed.

(** What one [set_servo] adds to the commands: nothing, or the clamped
    angle for its channel. *)
Lemma set_servo_issued (w : World) (ch angle : Z) (apply_offset : bool) :
  issued (fst (set_servo w ch angle apply_offset)) = issued w
  \/ issued (fst (set_servo w ch angle apply_offset))
     = issued w ++ [(ch, actual_angle w ch angle apply_offset)].
Proof.
  unfold set_servo. destruct (HW w); simpl; [|now left].
  destruct (write_first (hw_servos w) ch); simpl; auto.
Qed.

(** C9: whatever the channel (known or not), the angle and the use of the
    calibration, the angle [set_servo] holds before the write lies in
    [0, 180], and a call issues either no command or exactly that angle;
    so over any sequence of calls every command issued lies in [0, 180]. *)
Theorem set_servo_clamped :
  (forall (w : World) (ch angle : Z) (apply_offset : bool),
      0 <= actual_angle w ch angle apply_offset <= 180
      /\ (issued (fst (set_servo w ch angle apply_offset)) = issued w
          \/ issued (fst (set_servo w ch angle apply_offset))
             = issued w ++ [(ch, actual_angle w ch angle apply_offset)]))
  /\ (forall (w : World) (cs : list (Z * Z * bool)),
         exists cmds : list (Z * Z),
           issued (set_servos w cs) = issued w ++ cmds
           /\ Forall in_servo_range cmds).
Proof.
  split.
  - intros w ch angle apply_offset.
    split; [apply actual_angle_in_range | apply set_servo_issued].
  - intros w cs. revert w. induction cs as [|[[c a] b] cs IH]; intros w.
    + exists []. simpl. split; [now rewrite app_nil_r | constructor].
    + simpl. destruct (IH (fst (set_servo w c a b))) as (cmds & Heq & Hall).
      destruct (set_servo_issued w c a b) as [Hi | Hi]; rewrite Hi in Heq.
      * exists cmds. split; assumption.
      * exists ((c, actual_angle w c a b) :: cmds).
        split; [now rewrite Heq, <- app_assoc|].
        constructor; [|exact Hall].
        unfold in_servo_range. simpl. apply actual_angle_in_range.
Qed.

(** Out-of-range requests reach the knee of the front right leg (channel 4)
    as 180 and 0, with and without calibration. *)
Example set_servo_out_of_range :
  issued (set_servos robot0 [(4, 300, true); (4, -20, false)])
  = [(4, 180); (4, 0)].
Proof. vm_compute. reflexivity. Qed.

(** *** Further properties of the calibration and of the write port *)

(** X1: on a known channel the physical angle lies within the channel's
    limits when they are ordered; when they are inverted every logical
    angle maps to [min_angle]. *)
Theorem apply_to_angle_within_limits :
  forall (p : CalibrationProfile) (ch a : Z) (s : ServoCalibration),
    servos p !! ch = Some s ->
    (min_angle s <= max_angle s ->
     min_angle s <= apply_to_angle p ch a <= max_angle s)
    /\ (max_angle s < min_angle s -> apply_to_angle p ch a = min_angle s).
Proof.
  intros p ch a s Hs. rewrite (apply_to_angle_known _ _ _ _ Hs).
  rewrite py_max_spec, py_min_spec. split; lia.
Qed.

Lemma apply_to_angle_within_limits_witness :
  0 <= apply_to_angle profile_beyond_limit 1 300 <= 120.
Proof.
  apply (proj1 (apply_to_angle_within_limits profile_beyond_limit 1 300
                  knee_beyond_limit (lookup_insert_eq _ _ _))).
  simpl. lia.
Defined.

(** X2: the mapping follows the direction of the servo: with a direction
    that is not negative a larger logical angle never gives a smaller
    physical angle, with a direction that is not positive it never gives a
    larger one. *)
Theorem apply_to_angle_monotone :
  forall (p : CalibrationProfile) (ch a b : Z) (s : ServoCalibration),
    servos p !! ch = Some s ->
    a <= b ->
    (0 <= direction s -> apply_to_angle p ch a <= apply_to_angle p ch b)
    /\ (direction s <= 0 -> apply_to_angle p ch b <= apply_to_angle p ch a).
Proof.
  intros p ch a b s Hs Hab.
  rewrite !(apply_to_angle_known _ _ _ _ Hs), !py_max_spec, !py_min_spec.
  split; intros Hd.
  - assert (direction s * (a - 90) <= direction s * (b - 90)) by nia. lia.
  - assert (direction s * (b - 90) <= direction s * (a - 90)) by nia. lia.
Qed.

Lemma apply_to_angle_monotone_witness :
  apply_to_angle CalibrationProfile_init 4 30 <=
  apply_to_angle CalibrationProfile_init 4 120.
Proof.
  apply (proj1 (apply_to_angle_monotone CalibrationProfile_init 4 30 120 _
                  init_lookup_4 ltac:(lia))).
  simpl. lia.
Defined.

(** The servo table [__init__] builds, written out. *)
Lemma init_servos_eq :
  servos CalibrationProfile_init
  = <[11 := default_servo RR "ankle" 11]>
      (<[10 := default_servo RR "knee" 10]>
      (<[9 := default_servo RR "hip" 9]>
      (<[8 := default_servo RL "ankle" 8]>
      (<[7 := default_servo RL "knee" 7]>
      (<[6 := default_servo RL "hip" 6]>
      (<[5 := default_servo FR "ankle" 5]>
      (<[4 := default_servo FR "knee" 4]>
      (<[3 := default_servo FR "hip" 3]>
      (<[2 := default_servo FL "ankle" 2]>
      (<[1 := default_servo FL "knee" 1]>
      (<[0 := default_servo FL "hip" 0]> ∅))))))))))).
Proof. reflexivity. Qed.

Lemma init_lookup_outside (ch : Z) :
  ~ 0 <= ch <= 11 -> servos CalibrationProfile_init !! ch = None.
Proof.
  intros Hout. rewrite init_servos_eq.
  rewrite !lookup_insert_ne by lia. apply lookup_empty.
Qed.

Lemma init_lookup_inside (ch : Z) :
  0 <= ch <= 11 ->
  exists s : ServoCalibration,
    servos CalibrationProfile_init !! ch = Some s
    /\ channel s = ch /\ neutral_angle s = 90 /\ direction s = 1
    /\ min_angle s = 0 /\ max_angle s = 180 /\ calibrated s = false.
Proof.
  intros Hin.
  assert (Hcases : ch = 0 \/ ch = 1 \/ ch = 2 \/ ch = 3 \/ ch = 4 \/ ch = 5
                   \/ ch = 6 \/ ch = 7 \/ ch = 8 \/ ch = 9 \/ ch = 10
                   \/ ch = 11) by lia.
  repeat (destruct Hcases as [-> | Hcases]); try subst ch;
    (eexists; split; [vm_compute; reflexivity | repeat split]).
Qed.

(** X3: a new profile holds a record for exactly the channels 0 to 11,
    each with neutral 90, direction 1, limits [0, 180] and not calibrated;
    so it maps a logical angle of those channels to itself clamped to
    [0, 180], leaves any other channel alone, and is not fully
    calibrated. *)
Theorem fresh_profile_channels :
  forall ch a : Z,
    (0 <= ch <= 11 ->
     (exists s : ServoCalibration,
         servos CalibrationProfile_init !! ch = Some s
         /\ channel s = ch /\ neutral_angle s = 90 /\ direction s = 1
         /\ min_angle s = 0 /\ max_angle s = 180 /\ calibrated s = false)
     /\ apply_to_angle CalibrationProfile_init ch a = clamp a 0 180)
    /\ (~ 0 <= ch <= 11 ->
        servos CalibrationProfile_init !! ch = None
        /\ apply_to_angle CalibrationProfile_init ch a = a)
    /\ is_fully_calibrated CalibrationProfile_init = false.
Proof.
  intros ch a. split; [|split].
  - intros Hin. split; [now apply init_lookup_inside|].
    destruct (init_lookup_inside ch Hin)
      as (s & Hs & _ & Hn & Hd & Hmin & Hmax & _).
    rewrite (apply_to_angle_known _ _ _ _ Hs), Hn, Hd, Hmin, Hmax.
    unfold clamp. rewrite py_max_spec, py_min_spec. lia.
  - intros Hout. pose proof (init_lookup_outside ch Hout) as Hnone.
    split; [exact Hnone|]. unfold apply_to_angle. now rewrite Hnone.
  - vm_compute. reflexivity.
Qed.

(** [set_servo], case by case. *)
Lemma set_servo_eq (w : World) (ch angle : Z) (apply_offset : bool) :
  set_servo w ch angle apply_offset
  = let table := <[ch := angle]> (servo_angles w) in
    let sent := HW w && is_written (write_first (hw_servos w) ch) in
    ({| servo_angles := table;
        calibration := calibration w;
        HW := HW w;
        hw_servos := hw_servos w;
        issued := if sent
                  then issued w ++ [(ch, actual_angle w ch angle apply_offset)]
                  else issued w |},
     negb (HW w) || sent).
Proof.
  unfold set_servo. destruct (HW w); simpl; [|reflexivity].
  destruct (write_first (hw_servos w) ch); reflexivity.
Qed.

(** X4: [set_servo] always records the requested angle for its channel in
    [servo_angles], unclamped and also when the write fails, and leaves the
    other channels, the calibration and the servo objects alone; without
    hardware it reports success and sends nothing; with hardware it reports
    success exactly when it sent its one command. *)
Theorem set_servo_outcome :
  forall (w : World) (ch angle : Z) (apply_offset : bool),
    let w' := fst (set_servo w ch angle apply_offset) in
    let ok := snd (set_servo w ch angle apply_offset) in
    servo_angles w' !! ch = Some angle
    /\ (forall other : Z, other <> ch ->
          servo_angles w' !! other = servo_angles w !! other)
    /\ calibration w' = calibration w
    /\ HW w' = HW w
    /\ hw_servos w' = hw_servos w
    /\ (HW w = false -> ok = true /\ issued w' = issued w)
    /\ (HW w = true ->
        (ok = true /\
         issued w' = issued w ++ [(ch, actual_angle w ch angle apply_offset)])
        \/ (ok = false /\ issued w' = issued w)).
Proof.
  intros w ch angle apply_offset. cbv zeta. rewrite set_servo_eq. cbv zeta.
  simpl. split; [apply lookup_insert_eq|].
  split; [intros other Hne; now apply lookup_insert_ne|].
  repeat (split; [reflexivity|]).
  split; intros Hhw; rewrite Hhw; simpl; [split; reflexivity|].
  destruct (is_written _); [left | right]; split; reflexivity.
Qed.

(** On the twelve servos [init_servos] creates, the loop of [set_servo]
    finds a servo exactly for the channels 0 to 11. *)
Lemma write_first_healthy (ch : Z) :
  write_first init_servos_hw ch
  = if bool_decide (0 <= ch <= 11) then Written else NoMatch.
Proof.
  unfold init_servos_hw. cbn -[Z.eqb].
  case_bool_decide as Hin;
    repeat match goal with
           | |- context [(?k =? ch)] =>
               destruct (Z.eqb_spec k ch);
               [first [reflexivity | exfalso; lia]|]
           end;
    first [reflexivity | exfalso; lia].
Qed.

Lemma set_servo_healthy (w : World) (ch angle : Z) (apply_offset : bool) :
  healthy w ->
  0 <= ch <= 11 ->
  set_servo w ch angle apply_offset
  = ({| servo_angles := <[ch := angle]> (servo_angles w);
        calibration := calibration w;
        HW := HW w;
        hw_servos := hw_servos w;
        issued := issued w ++ [(ch, actual_angle w ch angle apply_offset)] |},
     true).
Proof.
  intros [Hhw Hsrv] Hch. rewrite set_servo_eq. cbv zeta.
  rewrite Hhw, Hsrv, write_first_healthy.
  rewrite (bool_decide_eq_true_2 _ Hch). reflexivity.
Qed.

(** X5: with the board present and its twelve servos answering,
    [set_servo] succeeds exactly on the channels 0 to 11; on any other
    channel it returns False and sends nothing. *)
Theorem set_servo_unmapped_channel :
  forall (w : World) (ch angle : Z) (apply_offset : bool),
    healthy w ->
    (snd (set_servo w ch angle apply_offset) = true <-> 0 <= ch <= 11)
    /\ (~ 0 <= ch <= 11 ->
        issued (fst (set_servo w ch angle apply_offset)) = issued w).
Proof.
  intros w ch angle apply_offset [Hhw Hsrv].
  rewrite set_servo_eq. cbv zeta. rewrite Hhw, Hsrv, write_first_healthy.
  simpl. case_bool_decide as Hin; simpl.
  - split; [tauto | intros Hout; contradiction].
  - split; [|reflexivity]. split; [discriminate | intros; contradiction].
Qed.

Lemma robot0_healthy : healthy robot0.
Proof. split; reflexivity. Qed.

Lemma set_servo_unmapped_channel_witness :
  snd (set_servo robot0 12 90 true) = false
  /\ issued (fst (set_servo robot0 12 90 true)) = [].
Proof.
  destruct (set_servo_unmapped_channel robot0 12 90 true robot0_healthy)
    as [Hiff Hout].
  split; [|apply Hout; lia].
  destruct (snd (set_servo robot0 12 90 true)); [|reflexivity].
  exfalso. assert (0 <= 12 <= 11) by (apply Hiff; reflexivity). lia.
Defined.

Lemma set_servo_keeps_healthy (w : World) (ch angle : Z) (b : bool) :
  healthy w -> healthy (fst (set_servo w ch angle b)).
Proof. intros Hw. rewrite set_servo_eq. exact Hw. Qed.

(** A run of raw writes, one per channel of [chs], of the angles [g]. *)
Lemma raw_writes_healthy (g : Z -> Z) (f : World -> Z -> World)
    (chs : list Z) :
  (forall w ch, f w ch = fst (set_servo w ch (g ch) false)) ->
  Forall (fun ch => 0 <= ch <= 11) chs ->
  forall w : World,
    healthy w ->
    issued (fold_left f chs w)
    = issued w ++ map (fun ch => (ch, clamp (g ch) 0 180)) chs
    /\ (forall ch, ch ∈ chs ->
          servo_angles (fold_left f chs w) !! ch = Some (g ch))
    /\ (forall ch, ch ∉ chs ->
          servo_angles (fold_left f chs w) !! ch = servo_angles w !! ch).
Proof.
  intros Hf Hchs. induction Hchs as [|c chs Hc _ IH]; intros w Hw.
  - simpl. rewrite app_nil_r. split; [reflexivity|].
    split; [intros ch Hin; now apply elem_of_nil in Hin | reflexivity].
  - simpl. rewrite Hf.
    destruct (IH _ (set_servo_keeps_healthy w c (g c) false Hw))
      as (Hissued & Hin & Hout).
    rewrite (set_servo_healthy w c (g c) false Hw Hc) in *. simpl in *.
    split; [|split].
    + rewrite Hissued, <- app_assoc. simpl. unfold actual_angle, clamp.
      now rewrite py_max_spec, py_min_spec.
    + intros ch Hch. apply elem_of_cons in Hch.
      destruct (decide (ch ∈ chs)) as [Hmem|Hmem]; [now apply Hin|].
      destruct Hch as [-> | Hch]; [|contradiction].
      rewrite (Hout c Hmem). apply lookup_insert_eq.
    + intros ch Hch. apply not_elem_of_cons in Hch as [Hne Hmem].
      rewrite (Hout ch Hmem). now apply lookup_insert_ne.
Qed.

Lemma range12_spec (ch : Z) : ch ∈ range12 <-> 0 <= ch <= 11.
Proof.
  unfold range12. rewrite list_elem_of_In, in_map_iff. split.
  - intros (n & <- & Hn). apply in_seq in Hn. lia.
  - intros Hch. exists (Z.to_nat ch). split; [lia | apply in_seq; lia].
Qed.

Lemma range12_channels : Forall (fun ch => 0 <= ch <= 11) range12.
Proof. apply Forall_forall. intros ch Hch. now apply range12_spec. Qed.

(** X6: with the board present and its servos answering,
    [goto_calibrated_neutrals] sends twelve commands, to the channels 0 to
    11 in order: the saved neutral angle of the channel (90 where the
    profile has none, or when no calibration is loaded), clamped to
    [0, 180] only, whatever the channel's own limits and direction; and it
    leaves that neutral angle in [servo_angles]. *)
Theorem goto_calibrated_neutrals_commands :
  forall w : World,
    healthy w ->
    issued (goto_calibrated_neutrals w)
    = issued w ++ map (fun ch => (ch, clamp (neutral_of w ch) 0 180)) range12
    /\ forall ch : Z,
         0 <= ch <= 11 ->
         servo_angles (goto_calibrated_neutrals w) !! ch
         = Some (neutral_of w ch).
Proof.
  intros w Hw.
  assert (Hrun : exists f : World -> Z -> World,
             goto_calibrated_neutrals w = fold_left f range12 w
             /\ forall w' ch,
                  f w' ch = fst (set_servo w' ch (neutral_of w ch) false)).
  { unfold goto_calibrated_neutrals, neutral_of.
    destruct (calibration w) as [cal|]; eexists; (split; [reflexivity|]).
    - intros w' ch. simpl. now destruct (servos cal !! ch).
    - reflexivity. }
  destruct Hrun as (f & -> & Hf).
  destruct (raw_writes_healthy (neutral_of w) f range12 Hf range12_channels
              w Hw) as (Hissued & Hin & _).
  split; [exact Hissued|].
  intros ch Hch. apply Hin. now apply range12_spec.
Qed.

Lemma robot_beyond_limit_healthy : healthy robot_beyond_limit.
Proof. split; reflexivity. Qed.

(** X6 on a robot whose front left knee is saved at 135 with an upper
    limit of 120: the knee is sent to 135 all the same. *)
Lemma goto_calibrated_neutrals_commands_witness :
  issued (goto_calibrated_neutrals robot_beyond_limit)
  = [(0, 90); (1, 135); (2, 90); (3, 90); (4, 90); (5, 90);
     (6, 90); (7, 90); (8, 90); (9, 90); (10, 90); (11, 90)].
Proof.
  rewrite (proj1 (goto_calibrated_neutrals_commands robot_beyond_limit
                    robot_beyond_limit_healthy)).
  vm_compute. reflexivity.
Defined.

Lemma leg_of_id_channels (leg_id : string) (l : Leg) :
  leg_of_id leg_id = Some l ->
  Forall (fun ch => 0 <= ch <= 11) (quad_channels l).
Proof. intros _. destruct l; repeat constructor; lia. Qed.

(** The worlds [set_leg] goes through are those of its calls in turn. *)
Lemma set_leg_fold (cas : list (Z * Z)) :
  forall (w : World) (success : bool),
    fst (fold_left
           (fun (acc : World * bool) (ca : Z * Z) =>
              let '(w, success) := acc in
              let '(w', ok) := set_servo w (fst ca) (snd ca) true in
              (w', if ok then success else false)) cas (w, success))
    = set_servos w (map (fun ca : Z * Z => (fst ca, snd ca, true)) cas).
Proof.
  induction cas as [|[c a] cas IH]; intros w success; [reflexivity|].
  simpl. destruct (set_servo w c a true) as [w' ok]. simpl. apply IH.
Qed.

Lemma set_leg_fold_healthy (cas : list (Z * Z)) :
  Forall (fun ca : Z * Z => 0 <= fst ca <= 11) cas ->
  forall (w : World) (success : bool),
    healthy w ->
    let r := fold_left
               (fun (acc : World * bool) (ca : Z * Z) =>
                  let '(w, success) := acc in
                  let '(w', ok) := set_servo w (fst ca) (snd ca) true in
                  (w', if ok then success else false)) cas (w, success) in
    snd r = success
    /\ length (issued (fst r)) = (length (issued w) + length cas)%nat.
Proof.
  induction 1 as [|[c a] cas Hc _ IH]; intros w success Hw.
  - simpl. split; [reflexivity | lia].
  - simpl in *.
    pose proof (set_servo_keeps_healthy w c a true Hw) as Hw'.
    rewrite (set_servo_healthy w c a true Hw Hc) in *. simpl in *.
    destruct (IH _ success Hw') as [Hok Hlen].
    split; [exact Hok|]. rewrite Hlen. simpl. rewrite length_app. simpl. lia.
Qed.

(** X7: [set_leg] on a key that is not a leg returns False and touches
    nothing; on a leg it makes one [set_servo] call per joint that has an
    angle, all of them whatever fails, so on a healthy robot it returns
    True after as many commands as the shorter of three and the number of
    angles given --- with no angle at all, True and nothing done. *)
Theorem set_leg_behaviour :
  forall (w : World) (leg_id : string) (angles : list Z),
    (leg_of_id leg_id = None -> set_leg w leg_id angles = (w, false))
    /\ (forall l : Leg,
           leg_of_id leg_id = Some l ->
           fst (set_leg w leg_id angles) = set_servos w (leg_calls l angles)
           /\ (healthy w ->
               snd (set_leg w leg_id angles) = true
               /\ length (issued (fst (set_leg w leg_id angles)))
                  = (length (issued w) + Nat.min 3 (length angles))%nat)
           /\ set_leg w leg_id [] = (w, true)).
Proof.
  intros w leg_id angles. split.
  - intros Hnone. unfold set_leg. now rewrite Hnone.
  - intros l Hl. unfold set_leg, leg_calls. rewrite Hl.
    split; [apply set_leg_fold|]. split.
    + intros Hw.
      assert (Hcas : Forall (fun ca : Z * Z => 0 <= fst ca <= 11)
                       (combine (quad_channels l) angles)).
      { apply Forall_forall. intros [c a] Hin. simpl.
        apply list_elem_of_In, in_combine_l in Hin.
        pose proof (leg_of_id_channels leg_id l Hl) as Hall.
        rewrite Forall_forall in Hall. apply Hall. now apply list_elem_of_In. }
      destruct (set_leg_fold_healthy _ Hcas w true Hw) as [Hok Hlen].
      split; [exact Hok|]. rewrite Hlen. f_equal.
      rewrite length_combine. now destruct l.
    + now destruct l.
Qed.

(** X7 at work: an unknown key, and a leg given two angles only. *)
Lemma set_leg_behaviour_witness :
  set_leg robot0 "XX" [90; 50; 142] = (robot0, false)
  /\ issued (fst (set_leg robot0 "RL" [90; 50])) = [(6, 90); (7, 50)].
Proof.
  split.
  - exact (proj1 (set_leg_behaviour robot0 "XX" [90; 50; 142]) eq_refl).
  - rewrite (proj1 (proj2 (set_leg_behaviour robot0 "RL" [90; 50]) RL eq_refl)).
    vm_compute. reflexivity.
Defined.

(** A run of calls on a healthy robot, all to channels 0 to 11: every one
    of them sends its command, and the table takes every angle. *)
Lemma set_servos_healthy (cs : list (Z * Z * bool)) :
  Forall (fun c : Z * Z * bool => 0 <= fst (fst c) <= 11) cs ->
  forall w : World,
    healthy w ->
    issued (set_servos w cs)
    = issued w
      ++ map (fun c : Z * Z * bool =>
                (fst (fst c),
                 actual_angle w (fst (fst c)) (snd (fst c)) (snd c))) cs
    /\ servo_angles (set_servos w cs)
       = fold_left (fun m (c : Z * Z * bool) => <[fst (fst c) := snd (fst c)]> m)
           cs (servo_angles w).
Proof.
  induction 1 as [|[[c a] b] cs Hc _ IH]; intros w Hw.
  - simpl. now rewrite app_nil_r.
  - simpl in *.
    destruct (IH _ (set_servo_keeps_healthy w c a b Hw)) as [Hissued Htable].
    rewrite Hissued, Htable.
    rewrite (set_servo_healthy w c a b Hw Hc). simpl.
    split; [|reflexivity].
    rewrite <- app_assoc. reflexivity.
Qed.

End CalibrationFacts.

(** ** Stability monitor *)
Module StabilityFacts.

Import Floats.
Import Stability.
Local Open Scope float_scope.

(** Listeners that raise only [Exception]s never make [notify] raise. *)
Lemma notify_returns (cbs : list Callback) (old new : StabilityState)
    (p r : float) :
  listeners_raise_only_Exception cbs -> notify cbs old new p r = Return tt.
Proof.
  unfold listeners_raise_only_Exception.
  induction 1 as [|cb cbs Hcb _ IH]; simpl; [reflexivity|].
  specialize (Hcb old new p r).
  destruct (cb old new p r) as [[]|[[|] msg]]; simpl in Hcb;
    [exact IH | exact IH | discriminate].
Qed.

Lemma handle_state_change_eq (self : StabilityMonitor)
    (new_state : StabilityState) (clk : Clock) :
  _handle_state_change self new_state clk
  = (notify (_on_state_change_callbacks self) (current_state self) new_state
       (pitch self) (roll self),
     changed self new_state clk, tick (tick clk)).
Proof. reflexivity. Qed.

Lemma changed_current (self : StabilityMonitor) new_state clk :
  current_state (changed self new_state clk) = new_state.
Proof. reflexivity. Qed.

(** The history after a transition, for the capacity [__init__] sets. *)
Lemma changed_history (self : StabilityMonitor) new_state clk :
  max_history_length self = 100%Z ->
  state_history (changed self new_state clk)
  = last_entries 100
      (state_history self
       ++ [(current_state self, now clk - state_start_time self)]).
Proof.
  intros Hmax. unfold changed, _handle_state_change, now. simpl.
  rewrite Hmax.
  set (hist := state_history self ++ _).
  unfold last_entries, py_slice_from.
  destruct (Z.ltb_spec 100 (Z.of_nat (length hist))) as [Hlt|Hge].
  - simpl. f_equal. lia.
  - replace (length hist - 100)%nat with 0%nat by lia. reflexivity.
Qed.

Lemma last_entries_length {A : Type} (n : nat) (l : list A) :
  (length (last_entries n l) <= n)%nat.
Proof. unfold last_entries. rewrite length_drop. lia. Qed.

(** [update], with its clock readings named. *)
Lemma update_eq (self : StabilityMonitor) (p r : float) (clk : Clock) :
  update self p r clk
  = let self1 := stored self p r clk in
    let new_state := classify (thresholds self) p r in
    if bool_decide (new_state <> current_state self)
    then
      match notify (_on_state_change_callbacks self) (current_state self)
              new_state p r with
      | Return _ =>
          (Return new_state, changed self1 new_state (tick clk),
           tick (tick (tick clk)))
      | Raise e =>
          (Raise e, changed self1 new_state (tick clk),
           tick (tick (tick clk)))
      end
    else (Return (current_state self), self1, tick clk).
Proof.
  unfold update. cbv zeta.
  change (time_time clk) with (now clk, tick clk). cbv iota beta.
  fold (stored self p r clk).
  change (thresholds (stored self p r clk)) with (thresholds self).
  change (current_state (stored self p r clk)) with (current_state self).
  destruct (bool_decide _); [|reflexivity].
  rewrite handle_state_change_eq.
  change (_on_state_change_callbacks (stored self p r clk))
    with (_on_state_change_callbacks self).
  change (current_state (stored self p r clk)) with (current_state self).
  change (pitch (stored self p r clk)) with p.
  change (roll (stored self p r clk)) with r.
  destruct (notify _ _ _ _ _); reflexivity.
Qed.

Lemma updated_eq (self : StabilityMonitor) (p r : float) (clk : Clock) :
  updated self p r clk
  = if bool_decide (classify (thresholds self) p r <> current_state self)
    then changed (stored self p r clk) (classify (thresholds self) p r)
           (tick clk)
    else stored self p r clk.
Proof.
  unfold updated. rewrite update_eq. cbv zeta.
  destruct (bool_decide _); [|reflexivity].
  destruct (notify _ _ _ _ _); reflexivity.
Qed.

Lemma updated_current (self : StabilityMonitor) (p r : float) (clk : Clock) :
  current_state (updated self p r clk) = classify (thresholds self) p r.
Proof.
  rewrite updated_eq. case_bool_decide as Hne; [apply changed_current|].
  simpl. destruct (decide (classify (thresholds self) p r = current_state self))
    as [->|]; [reflexivity | contradiction].
Qed.

(** [update] returns the classification when no listener raises past
    [except Exception]. *)
Lemma update_returns (self : StabilityMonitor) (p r : float) (clk : Clock) :
  listeners_raise_only_Exception (_on_state_change_callbacks self) ->
  exists clk',
    update self p r clk
    = (Return (classify (thresholds self) p r), updated self p r clk, clk').
Proof.
  intros Hcb. rewrite updated_eq, update_eq. cbv zeta.
  case_bool_decide as Hne.
  - rewrite (notify_returns _ _ _ _ _ Hcb). eexists. reflexivity.
  - destruct (decide (classify (thresholds self) p r = current_state self))
      as [->|]; [|contradiction].
    eexists. reflexivity.
Qed.

(** C2: [update] returns the classification (its listeners raising at most
    [Exception]s) and stores it as the current state (whatever they do); the
    classification takes the worst tier first with strict comparisons:
    Emergency, else Critical, else Warning, else Stable; with the default
    thresholds (10, 20, 30) the readings (5,5), (12,0), (0,25), (35,0) give
    Stable, Warning, Critical, Emergency. *)
Theorem update_classification :
  (forall (self : StabilityMonitor) (p r : float) (clk : Clock),
      listeners_raise_only_Exception (_on_state_change_callbacks self) ->
      exists (self' : StabilityMonitor) (clk' : Clock),
        update self p r clk
        = (Return (classify (thresholds self) p r), self', clk')
        /\ current_state self' = classify (thresholds self) p r)
  /\ (forall (self : StabilityMonitor) (p r : float) (clk : Clock),
         current_state (snd (fst (update self p r clk)))
         = classify (thresholds self) p r)
  /\ (forall (th : StabilityThresholds) (p r : float),
         let emergency :=
           exceeds p (emergency_pitch th) \/ exceeds r (emergency_roll th) in
         let critical :=
           exceeds p (critical_pitch th) \/ exceeds r (critical_roll th) in
         let warning :=
           exceeds p (warning_pitch th) \/ exceeds r (warning_roll th) in
         (emergency -> classify th p r = EMERGENCY)
         /\ (~ emergency -> critical -> classify th p r = CRITICAL)
         /\ (~ emergency -> ~ critical -> warning ->
             classify th p r = WARNING)
         /\ (~ emergency -> ~ critical -> ~ warning ->
             classify th p r = STABLE))
  /\ (forall clk0 clk : Clock,
         let monitor := fst (StabilityMonitor_init None clk0) in
         fst (fst (update monitor 5 5 clk)) = Return STABLE
         /\ fst (fst (update monitor 12 0 clk)) = Return WARNING
         /\ fst (fst (update monitor 0 25 clk)) = Return CRITICAL
         /\ fst (fst (update monitor 35 0 clk)) = Return EMERGENCY).
Proof.
  split; [|split; [|split]].
  - intros self p r clk Hcb.
    destruct (update_returns self p r clk Hcb) as [clk' Heq].
    exists (updated self p r clk), clk'.
    split; [exact Heq | apply updated_current].
  - intros self p r clk. apply updated_current.
  - intros th p r. unfold exceeds, classify. cbv zeta.
    destruct (emergency_pitch th <? abs p), (emergency_roll th <? abs r),
      (critical_pitch th <? abs p), (critical_roll th <? abs r),
      (warning_pitch th <? abs p), (warning_roll th <? abs r);
      simpl; intuition congruence.
  - intros clk0 clk. cbv zeta. repeat split; reflexivity.
Qed.

Lemma failing_listener_caught :
  listeners_raise_only_Exception
    (_on_state_change_callbacks (on_state_change monitor0 failing_listener)).
Proof.
  simpl. unfold listeners_raise_only_Exception.
  constructor; [reflexivity | constructor].
Qed.

(** C2 on a monitor with a raising listener: a pitch of 12 is a Warning. *)
Lemma update_classification_witness :
  exists (self' : StabilityMonitor) (clk' : Clock),
    update (on_state_change monitor0 failing_listener) 12 0 clock0
    = (Return WARNING, self', clk')
    /\ current_state self' = WARNING.
Proof.
  exact (proj1 update_classification
           (on_state_change monitor0 failing_listener) 12 0 clock0
           failing_listener_caught).
Defined.

Lemma updated_bounded (self : StabilityMonitor) (p r : float) (clk : Clock) :
  bounded self -> bounded (updated self p r clk).
Proof.
  intros [Hmax Hlen]. rewrite updated_eq.
  destruct (bool_decide _); [|split; assumption].
  split; [exact Hmax|].
  rewrite changed_history by exact Hmax. apply last_entries_length.
Qed.

Lemma call_bounded (c : Call) (self : StabilityMonitor) (clk : Clock) :
  bounded self -> bounded (fst (call c self clk)).
Proof.
  intros Hb. destruct c as [p r| |cb].
  - replace (fst (call (CallUpdate p r) self clk)) with (updated self p r clk).
    + now apply updated_bounded.
    + unfold updated. simpl. now destruct (update self p r clk) as [[o m] k].
  - destruct Hb as [Hmax _]. split; [exact Hmax | simpl; lia].
  - exact Hb.
Qed.

Lemma run_bounded (cs : list Call) (self : StabilityMonitor) (clk : Clock) :
  bounded self -> bounded (fst (run cs self clk)).
Proof.
  revert self clk. induction cs as [|c cs IH]; intros self clk Hb; [exact Hb|].
  simpl. pose proof (call_bounded c self clk Hb) as Hc.
  destruct (call c self clk) as [self' clk']. now apply IH.
Qed.

(** C7: a transition appends (previous state, time spent in it) and keeps
    the last 100 entries; from a fresh monitor, after any sequence of
    [update], [reset] and [on_state_change] calls the history holds at most
    100 entries; and [update] returns normally when its listeners raise
    [Exception]s. *)
Theorem history_capped :
  (forall (self : StabilityMonitor) (new_state : StabilityState) (clk : Clock),
      max_history_length self = 100%Z ->
      state_history (snd (fst (_handle_state_change self new_state clk)))
      = last_entries 100
          (state_history self
           ++ [(current_state self,
                fst (time_time clk) - state_start_time self)]))
  /\ (forall (th : option StabilityThresholds) (clk : Clock) (cs : list Call),
         let '(monitor, clk1) := StabilityMonitor_init th clk in
         (length (state_history (fst (run cs monitor clk1))) <= 100)%nat)
  /\ (forall (self : StabilityMonitor) (p r : float) (clk : Clock),
         listeners_raise_only_Exception (_on_state_change_callbacks self) ->
         exists (st : StabilityState) (self' : StabilityMonitor)
                (clk' : Clock),
           update self p r clk = (Return st, self', clk')).
Proof.
  split; [|split].
  - intros self new_state clk Hmax. now apply changed_history.
  - intros th clk cs. simpl.
    apply run_bounded. split; [reflexivity | simpl; lia].
  - intros self p r clk Hcb.
    destruct (update_returns self p r clk Hcb) as [clk' Heq].
    eauto.
Qed.

(** C7 on a monitor whose listener raises: the transition to Warning is
    recorded and [update] still returns. *)
Lemma history_capped_witness :
  exists (st : StabilityState) (self' : StabilityMonitor) (clk' : Clock),
    update (on_state_change monitor0 failing_listener) 12 0 clock0
    = (Return st, self', clk').
Proof.
  exact (proj2 (proj2 history_capped)
           (on_state_change monitor0 failing_listener) 12 0 clock0
           failing_listener_caught).
Defined.

Example full_history_evicts_oldest :
  state_history (snd (fst (update full_monitor 0 0 clock0)))
  = replicate 99 (STABLE, 2) ++ [(WARNING, 0)].
Proof. vm_compute. reflexivity. Qed.

Lemma updated_same_dwell (self : StabilityMonitor) (p r : float) (clk : Clock) :
  classify (thresholds self) p r = current_state self ->
  same_dwell self (updated self p r clk).
Proof.
  intros Hsame. rewrite updated_eq.
  case_bool_decide as Hne; [contradiction|].
  repeat split.
Qed.

Lemma run_same_dwell (samples : list (float * float)) :
  forall (self : StabilityMonitor) (clk : Clock),
    all_in_state self samples ->
    same_dwell self
      (fst (run (map (fun s => CallUpdate (fst s) (snd s)) samples) self clk)).
Proof.
  induction samples as [|[p r] samples IH]; intros self clk Hall.
  - repeat split.
  - inversion Hall as [|s l Hs Hrest]; subst. simpl in Hs.
    pose proof (updated_same_dwell self p r clk Hs) as (Hh & Ht & Hc & Hth).
    simpl. unfold updated in *.
    destruct (update self p r clk) as [[o self1] clk1]. simpl in *.
    assert (Hall1 : all_in_state self1 samples).
    { unfold all_in_state in *. rewrite Hth, Hc. exact Hrest. }
    destruct (IH self1 clk1 Hall1) as (Hh' & Ht' & Hc' & Hth').
    repeat split; congruence.
Qed.

(** C10: an [update] whose classification is the current state leaves the
    history and the state-start time as they were, also over any run of
    such updates, so the dwell time keeps growing; every [update] stores
    the pitch, the roll and the time of the check. *)
Theorem update_without_transition :
  forall (self : StabilityMonitor) (p r : float) (clk : Clock),
    (classify (thresholds self) p r = current_state self ->
     let self' := snd (fst (update self p r clk)) in
     fst (fst (update self p r clk)) = Return (current_state self)
     /\ state_history self' = state_history self
     /\ state_start_time self' = state_start_time self
     /\ current_state self' = current_state self
     /\ previous_state self' = previous_state self)
    /\ (forall samples : list (float * float),
           all_in_state self samples ->
           let self' :=
             fst (run (map (fun s => CallUpdate (fst s) (snd s)) samples)
                    self clk) in
           state_history self' = state_history self
           /\ state_start_time self' = state_start_time self)
    /\ (let self' := snd (fst (update self p r clk)) in
        pitch self' = p /\ roll self' = r
        /\ last_check_time self' = fst (time_time clk)).
Proof.
  intros self p r clk. split; [|split].
  - intros Hsame. cbv zeta. rewrite update_eq. cbv zeta.
    case_bool_decide as Hne; [contradiction|].
    repeat split.
  - intros samples Hall. cbv zeta.
    destruct (run_same_dwell samples self clk Hall) as (Hh & Ht & _).
    split; assumption.
  - cbv zeta. fold (updated self p r clk). rewrite updated_eq.
    destruct (bool_decide _); repeat split.
Qed.

(** C10 on the fresh monitor: a level reading keeps it Stable, with its
    history and start time untouched. *)
Lemma update_without_transition_witness :
  fst (fst (update monitor0 5 5 clock0)) = Return STABLE
  /\ state_history (snd (fst (update monitor0 5 5 clock0))) = []
  /\ state_start_time (snd (fst (update monitor0 5 5 clock0)))
     = state_start_time monitor0.
Proof.
  destruct (proj1 (update_without_transition monitor0 5 5 clock0) eq_refl)
    as (Hret & Hhist & Hstart & _).
  split; [exact Hret|]. split; [exact Hhist | exact Hstart].
Defined.

(** *** Further properties of the stability monitor *)




(** The history after a transition, below and at the capacity. *)
Lemma changed_history_app (self : StabilityMonitor) new_state clk :
  bounded self ->
  state_history (changed self new_state clk)
  = drop (length (state_history self) + 1 - 100) (state_history self)
    ++ [(current_state self, now clk - state_start_time self)].
Proof.
  intros [Hmax Hlen]. rewrite changed_history by exact Hmax.
  unfold last_entries. rewrite length_app. simpl.
  rewrite drop_app_le by lia. reflexivity.
Qed.






(** X9: on a monitor with the capacity of 100, an [update] that changes
    the state makes the history one entry longer, up to 100 entries where
    it stays; an [update] that does not change the state leaves its
    length. *)
Theorem history_grows_by_one :
  forall (self : StabilityMonitor) (p r : float) (clk : Clock),
    bounded self ->
    length (state_history (snd (fst (update self p r clk))))
    = if bool_decide (classify (thresholds self) p r = current_state self)
      then length (state_history self)
      else Nat.min (length (state_history self) + 1) 100.
Proof.
  intros self p r clk Hb. fold (updated self p r clk). rewrite updated_eq.
  destruct (decide (classify (thresholds self) p r = current_state self))
    as [Heq|Hne].
  - rewrite (bool_decide_eq_false_2 _ (fun H => H Heq)).
    now rewrite (bool_decide_eq_true_2 _ Heq).
  - rewrite (bool_decide_eq_true_2 _ Hne), (bool_decide_eq_false_2 _ Hne).
    rewrite (changed_history_app (stored self p r clk)) by exact Hb.
    destruct Hb as [_ Hlen]. rewrite length_app, length_drop. simpl in *. lia.
Qed.

Lemma full_monitor_bounded : bounded full_monitor.
Proof. split; [reflexivity | simpl; lia]. Qed.

(** X9 on a new monitor (no entry, then one) and on a full one (100
    entries, still 100). *)
Lemma history_grows_by_one_witness :
  length (state_history (snd (fst (update monitor0 12 0 clock0)))) = 1%nat
  /\ length (state_history (snd (fst (update full_monitor 0 0 clock0))))
     = 100%nat.
Proof.
  split.
  - rewrite (history_grows_by_one monitor0 12 0 clock0);
      [reflexivity | split; [reflexivity | simpl; lia]].
  - rewrite (history_grows_by_one full_monitor 0 0 clock0 full_monitor_bounded).
    reflexivity.
Defined.

(** Up to the first listener that raises past [except Exception]. *)
Lemma notify_propagates (cbs1 cbs2 : list Callback) (cb : Callback)
    (old new : StabilityState) (p r : float) (msg : string) :
  listeners_raise_only_Exception cbs1 ->
  cb old new p r = Raise (Exc false msg) ->
  notify (cbs1 ++ cb :: cbs2) old new p r = Raise (Exc false msg).
Proof.
  unfold listeners_raise_only_Exception. intros Hcbs Hcb.
  induction Hcbs as [|c cbs1 Hc _ IH]; simpl.
  - now rewrite Hcb.
  - specialize (Hc old new p r).
    destruct (c old new p r) as [[]|[[|] m]]; simpl in Hc;
      [exact IH | exact IH | discriminate].
Qed.

(** X10: when a listener raises something that is not an [Exception]
    (a [KeyboardInterrupt], say) during a transition, [update] lets it
    through, and the monitor has by then switched to the new state and
    recorded the state it left. *)
Theorem update_interrupted_after_commit :
  forall (self : StabilityMonitor) (p r : float) (clk : Clock)
         (cbs1 cbs2 : list Callback) (cb : Callback) (msg : string),
    _on_state_change_callbacks self = cbs1 ++ cb :: cbs2 ->
    listeners_raise_only_Exception cbs1 ->
    cb (current_state self) (classify (thresholds self) p r) p r
    = Raise (Exc false msg) ->
    classify (thresholds self) p r <> current_state self ->
    let self' := snd (fst (update self p r clk)) in
    fst (fst (update self p r clk)) = Raise (Exc false msg)
    /\ current_state self' = classify (thresholds self) p r
    /\ previous_state self' = current_state self
    /\ (max_history_length self = 100%Z ->
        last (state_history self')
        = Some (current_state self,
                fst (time_time (snd (time_time clk)))
                - state_start_time self)).
Proof.
  intros self p r clk cbs1 cbs2 cb msg Hcbs Hok Hcb Hne. cbv zeta.
  fold (updated self p r clk). rewrite updated_eq, update_eq. cbv zeta.
  rewrite (bool_decide_eq_true_2 _ Hne).
  rewrite Hcbs, (notify_propagates cbs1 cbs2 cb _ _ p r msg Hok Hcb).
  split; [reflexivity|]. split; [reflexivity|]. split; [reflexivity|].
  intros Hmax. rewrite (changed_history (stored self p r clk)) by exact Hmax.
  unfold last_entries. rewrite length_app. simpl.
  rewrite drop_app_le by lia. apply last_snoc.
Qed.

Lemma update_interrupted_after_commit_witness :
  fst (fst (update (on_state_change monitor0 interrupting_listener)
              35 0 clock0))
  = Raise (Exc false "KeyboardInterrupt")
  /\ current_state
       (snd (fst (update (on_state_change monitor0 interrupting_listener)
                    35 0 clock0)))
     = EMERGENCY.
Proof.
  destruct (update_interrupted_after_commit
              (on_state_change monitor0 interrupting_listener) 35 0 clock0
              [] [] interrupting_listener "KeyboardInterrupt"
              eq_refl ltac:(constructor) eq_refl)
    as (Hres & Hcur & _).
  - discriminate.
  - split; [exact Hres | exact Hcur].
Defined.

(** X11: repeating a reading changes nothing but the time of the check:
    the second [update] with the same pitch and roll leaves the state, the
    history and the state-start time of the first. *)
Theorem update_idempotent :
  forall (self : StabilityMonitor) (p r : float) (clk clk' : Clock),
    let once := snd (fst (update self p r clk)) in
    let twice := snd (fst (update once p r clk')) in
    current_state twice = current_state once
    /\ previous_state twice = previous_state once
    /\ state_history twice = state_history once
    /\ state_start_time twice = state_start_time once
    /\ fst (fst (update once p r clk')) = Return (current_state once).
Proof.
  intros self p r clk clk'. cbv zeta. fold (updated self p r clk).
  assert (Hth : thresholds (updated self p r clk) = thresholds self).
  { rewrite updated_eq. now destruct (bool_decide _). }
  assert (Hsame : classify (thresholds (updated self p r clk)) p r
                  = current_state (updated self p r clk)).
  { rewrite Hth. symmetry. apply updated_current. }
  fold (updated (updated self p r clk) p r clk').
  rewrite (updated_eq (updated self p r clk)), update_eq. cbv zeta.
  case_bool_decide as Hne; [contradiction|]. repeat split.
Qed.

Lemma ltb_nan_r (x : float) : (x <? nan) = false.
Proof.
  rewrite ltb_spec. change (Prim2SF nan) with S754_nan.
  unfold SFltb. now destruct (Prim2SF x).
Qed.

(** X12: a reading that is not a number exceeds no threshold: with any
    thresholds a NaN pitch leaves the classification to the roll, and
    [update(nan, nan)] ends in Stable. *)
Theorem nan_reading_is_stable :
  forall (th : StabilityThresholds) (r : float),
    classify th nan r
    = (if emergency_roll th <? abs r then EMERGENCY
       else if critical_roll th <? abs r then CRITICAL
       else if warning_roll th <? abs r then WARNING
       else STABLE)
    /\ classify th nan nan = STABLE
    /\ forall (self : StabilityMonitor) (clk : Clock),
         current_state (snd (fst (update self nan nan clk))) = STABLE.
Proof.
  assert (Hnan : forall th r,
             classify th nan r
             = (if emergency_roll th <? abs r then EMERGENCY
                else if critical_roll th <? abs r then CRITICAL
                else if warning_roll th <? abs r then WARNING
                else STABLE)).
  { intros th r. unfold classify. cbv zeta.
    change (abs nan) with nan. now rewrite !ltb_nan_r. }
  assert (Hstable : forall th, classify th nan nan = STABLE).
  { intros th. rewrite Hnan. change (abs nan) with nan.
    now rewrite !ltb_nan_r. }
  intros th r. split; [apply Hnan|]. split; [apply Hstable|].
  intros self clk. fold (updated self nan nan clk).
  rewrite updated_current. apply Hstable.
Qed.

Lemma abs_opp (x : float) : abs (- x) = abs x.
Proof.
  apply Prim2SF_inj. rewrite !abs_spec, opp_spec.
  now destruct (Prim2SF x).
Qed.

(** X13: the side of the tilt does not matter: negating the pitch or the
    roll gives the same classification. *)
Theorem classify_sign_symmetric :
  forall (th : StabilityThresholds) (p r : float),
    classify th (- p) r = classify th p r
    /\ classify th p (- r) = classify th p r.
Proof.
  intros th p r. unfold classify. cbv zeta. now rewrite !abs_opp.
Qed.

(** The order of binary64 values: below, then at most, is below. *)
Lemma SFcompare_lt_le_trans (x y z : spec_float) :
  SFcompare x y = Some Lt ->
  (SFcompare y z = Some Lt \/ SFcompare y z = Some Eq) ->
  SFcompare x z = Some Lt.
Proof.
  destruct x as [sx|sx| |sx mx ex], y as [sy|sy| |sy my ey],
    z as [sz|sz| |sz mz ez]; simpl;
    try destruct sx; try destruct sy; try destruct sz; simpl;
    intros Hxy [Hyz|Hyz]; try congruence; try discriminate.
  all: change (PosDef.Pos.compare_cont Eq) with Pos.compare in *.
  all: destruct (Z.compare_spec ex ey), (Z.compare_spec ey ez),
         (Z.compare_spec ex ez); try lia; try congruence; try discriminate;
         subst.
  all: repeat match goal with
       | H : context [Pos.compare ?a ?b] |- _ =>
           destruct (Pos.compare_spec a b); simpl in H; try discriminate
       | |- context [Pos.compare ?a ?b] =>
           destruct (Pos.compare_spec a b); simpl
       end; try congruence; try lia.
Qed.

Lemma ltb_leb_trans (t a b : float) :
  (t <? a) = true -> (a <=? b) = true -> (t <? b) = true.
Proof.
  rewrite !ltb_spec, leb_spec. unfold SFltb, SFleb.
  intros Hta Hab.
  assert (H1 : SFcompare (Prim2SF t) (Prim2SF a) = Some Lt).
  { destruct (SFcompare (Prim2SF t) (Prim2SF a)) as [[]|];
      congruence || discriminate. }
  assert (H2 : SFcompare (Prim2SF a) (Prim2SF b) = Some Lt
               \/ SFcompare (Prim2SF a) (Prim2SF b) = Some Eq).
  { destruct (SFcompare (Prim2SF a) (Prim2SF b)) as [[]|];
      (now left) || (now right) || discriminate. }
  now rewrite (SFcompare_lt_le_trans _ _ _ H1 H2).
Qed.

(** X14: a reading at least as large in both angles is never classified
    as less severe, whatever the thresholds. *)
Theorem classify_monotone :
  forall (th : StabilityThresholds) (p r p' r' : float),
    (abs p <=? abs p') = true ->
    (abs r <=? abs r') = true ->
    (severity (classify th p r) <= severity (classify th p' r'))%nat.
Proof.
  intros th p r p' r' Hp Hr. unfold classify. cbv zeta.
  pose proof (fun H => ltb_leb_trans (emergency_pitch th) _ _ H Hp) as Hep.
  pose proof (fun H => ltb_leb_trans (emergency_roll th) _ _ H Hr) as Her.
  pose proof (fun H => ltb_leb_trans (critical_pitch th) _ _ H Hp) as Hcp.
  pose proof (fun H => ltb_leb_trans (critical_roll th) _ _ H Hr) as Hcr.
  pose proof (fun H => ltb_leb_trans (warning_pitch th) _ _ H Hp) as Hwp.
  pose proof (fun H => ltb_leb_trans (warning_roll th) _ _ H Hr) as Hwr.
  clear Hp Hr.
  destruct (emergency_pitch th <? abs p);
    [rewrite (Hep eq_refl); simpl; lia|].
  destruct (emergency_roll th <? abs r);
    [rewrite (Her eq_refl), !orb_true_r; simpl; lia|].
  destruct (critical_pitch th <? abs p);
    [rewrite (Hcp eq_refl);
     destruct (_ <? abs p'), (_ <? abs r'); simpl; lia|].
  destruct (critical_roll th <? abs r);
    [rewrite (Hcr eq_refl), !orb_true_r;
     destruct (_ <? abs p'), (_ <? abs r'); simpl; lia|].
  destruct (warning_pitch th <? abs p);
    [rewrite (Hwp eq_refl);
     destruct (emergency_pitch th <? abs p'), (emergency_roll th <? abs r'),
       (critical_pitch th <? abs p'), (critical_roll th <? abs r');
     simpl; lia|].
  destruct (warning_roll th <? abs r);
    [rewrite (Hwr eq_refl), !orb_true_r;
     destruct (emergency_pitch th <? abs p'), (emergency_roll th <? abs r'),
       (critical_pitch th <? abs p'), (critical_roll th <? abs r');
     simpl; lia|].
  simpl. lia.
Qed.

Lemma classify_monotone_witness :
  (severity (classify StabilityThresholds_default 12 0)
   <= severity (classify StabilityThresholds_default (-25) 3))%nat.
Proof.
  apply (classify_monotone StabilityThresholds_default 12 0 (-25) 3);
    reflexivity.
Defined.

(** After [update], [is_emergency] holds exactly when the pitch or
    the roll exceeds its emergency threshold, and [needs_attention]
    exactly when one of the six thresholds is exceeded, in whatever order
    the thresholds are; [is_stable] is its negation. *)
Theorem flags_after_update :
  forall (self : StabilityMonitor) (p r : float) (clk : Clock),
    let th := thresholds self in
    let self' := snd (fst (update self p r clk)) in
    is_emergency self'
    = (emergency_pitch th <? abs p) || (emergency_roll th <? abs r)
    /\ needs_attention self'
       = (emergency_pitch th <? abs p) || (emergency_roll th <? abs r)
         || (critical_pitch th <? abs p) || (critical_roll th <? abs r)
         || (warning_pitch th <? abs p) || (warning_roll th <? abs r)
    /\ is_stable self' = negb (needs_attention self').
Proof.
  intros self p r clk. cbv zeta. fold (updated self p r clk).
  unfold is_emergency, needs_attention, is_stable.
  rewrite updated_current. unfold classify. cbv zeta.
  destruct (emergency_pitch (thresholds self) <? abs p),
    (emergency_roll (thresholds self) <? abs r),
    (critical_pitch (thresholds self) <? abs p),
    (critical_roll (thresholds self) <? abs r),
    (warning_pitch (thresholds self) <? abs p),
    (warning_roll (thresholds self) <? abs r); repeat split.
Qed.

End StabilityFacts.

(** ** Balance controller *)
Module BalanceFacts.

Import Balance.
Local Open Scope R_scope.

Lemma ltb_true (a b : R) : a < b -> ltb a b = true.
Proof. intros H. unfold ltb. destruct (Rlt_dec a b); [reflexivity | lra]. Qed.

Lemma ltb_false (a b : R) : a >= b -> ltb a b = false.
Proof. intros H. unfold ltb. destruct (Rlt_dec a b); [lra | reflexivity]. Qed.

(** The bad-reading test is the conjunction the source writes. *)
Lemma bad_reading_true (accel : Accel) :
  Rabs (ax accel) < 0.01 /\ Rabs (ay accel) < 0.01 /\ Rabs (az accel) < 0.01 ->
  bad_reading accel = true.
Proof.
  intros (Hx & Hy & Hz). unfold bad_reading.
  now rewrite !ltb_true by assumption.
Qed.

Lemma bad_reading_false (accel : Accel) :
  Rabs (ax accel) >= 0.01 \/ Rabs (ay accel) >= 0.01
  \/ Rabs (az accel) >= 0.01 ->
  bad_reading accel = false.
Proof.
  intros [H | [H | H]]; unfold bad_reading; rewrite (ltb_false _ _ H);
    rewrite ?andb_false_r; reflexivity.
Qed.

(** [_read_raw_angles] on a working sensor, by the sample it delivers. *)
Lemma read_raw_angles_sample (self : BalanceController) (dev : Imu)
    (accel : Accel) :
  simulation_mode self = false ->
  imu self = Some dev ->
  samples dev (reads dev) = Sample accel ->
  _read_raw_angles self
  = let self1 := with_imu self (Some (snd (get_accel_data dev))) in
    if bad_reading accel
    then ((_last_raw_pitch self, _last_raw_roll self), self1)
    else
      let pitch :=
        atan2 (ay accel) (sqrt (ax accel ^ 2 + az accel ^ 2)) * 57.2958 in
      let roll := atan2 (- ax accel) (az accel) * 57.2958 in
      ((pitch, roll), with_last_raw self1 pitch roll).
Proof.
  intros Hsim Himu Hsample. unfold _read_raw_angles.
  rewrite Hsim, Himu. unfold get_accel_data. rewrite Hsample. reflexivity.
Qed.

(** C3: on a sample whose three axes are all below 0.01 in magnitude,
    [_read_raw_angles] returns the stored last-good pair and leaves it
    stored; on a sample with an axis of magnitude 0.01 or more it returns
    pitch = atan2(ay, sqrt(ax^2 + az^2)) and roll = atan2(-ax, az), scaled
    to degrees, and stores them as the new last-good pair. *)
Theorem read_raw_angles_bad_reading_policy :
  forall (self : BalanceController) (dev : Imu) (accel : Accel),
    simulation_mode self = false ->
    imu self = Some dev ->
    samples dev (reads dev) = Sample accel ->
    let result := fst (_read_raw_angles self) in
    let self' := snd (_read_raw_angles self) in
    (Rabs (ax accel) < 0.01 /\ Rabs (ay accel) < 0.01
     /\ Rabs (az accel) < 0.01 ->
     result = (_last_raw_pitch self, _last_raw_roll self)
     /\ _last_raw_pitch self' = _last_raw_pitch self
     /\ _last_raw_roll self' = _last_raw_roll self)
    /\ (Rabs (ax accel) >= 0.01 \/ Rabs (ay accel) >= 0.01
        \/ Rabs (az accel) >= 0.01 ->
        let pitch :=
          atan2 (ay accel) (sqrt (ax accel ^ 2 + az accel ^ 2)) * 57.2958 in
        let roll := atan2 (- ax accel) (az accel) * 57.2958 in
        result = (pitch, roll)
        /\ _last_raw_pitch self' = pitch
        /\ _last_raw_roll self' = roll).
Proof.
  intros self dev accel Hsim Himu Hsample. cbv zeta.
  rewrite (read_raw_angles_sample self dev accel Hsim Himu Hsample).
  cbv zeta. split.
  - intros Hbad. rewrite (bad_reading_true accel Hbad). repeat split.
  - intros Hgood. rewrite (bad_reading_false accel Hgood). repeat split.
Qed.

Lemma Rabs_small : Rabs 0.001 < 0.01.
Proof. rewrite Rabs_right; lra. Qed.

Lemma Rabs_gravity : Rabs 9.8 >= 0.01.
Proof. rewrite Rabs_right; lra. Qed.

(** C3 at the spec's glitch sample (0.001, 0.001, 0.001) and at a level
    robot (0, 0, 9.8). *)
Lemma read_raw_angles_bad_reading_policy_witness :
  fst (_read_raw_angles (controller_on glitch)) = (1.5, -2)
  /\ fst (_read_raw_angles (controller_on level))
     = (atan2 0 (sqrt (0 ^ 2 + 9.8 ^ 2)) * 57.2958, atan2 (- 0) 9.8 * 57.2958).
Proof.
  split.
  - apply (read_raw_angles_bad_reading_policy (controller_on glitch)
             (get_accel_data_n 3 (imu_reading (Sample glitch))) glitch
             eq_refl eq_refl eq_refl).
    simpl. repeat split; exact Rabs_small.
  - apply (read_raw_angles_bad_reading_policy (controller_on level)
             (get_accel_data_n 3 (imu_reading (Sample level))) level
             eq_refl eq_refl eq_refl).
    simpl. right. right. exact Rabs_gravity.
Defined.

(** Neither reading the sensor nor filtering touches the gain. *)
Lemma read_raw_angles_kp (self : BalanceController) :
  kp (snd (_read_raw_angles self)) = kp self.
Proof.
  unfold _read_raw_angles.
  destruct (simulation_mode self); [reflexivity|].
  destruct (imu self) as [dev|]; [|reflexivity].
  destruct (get_accel_data dev) as [[accel|] dev']; [|reflexivity].
  destruct (bad_reading accel); reflexivity.
Qed.

Lemma get_angles_kp (self : BalanceController) :
  kp (snd (get_angles self)) = kp self.
Proof.
  unfold get_angles. pose proof (read_raw_angles_kp self) as Hkp.
  destruct (_read_raw_angles self) as [[rp rr] self1]. simpl in *. exact Hkp.
Qed.

(** C4: with (pitch, roll) the pair [get_angles] produces and kp the gain,
    [get_correction] returns FL = -pitch*kp - roll*kp*0.5,
    FR = -pitch*kp + roll*kp*0.5, RL = -pitch*kp*0.5 - roll*kp*0.5 and
    RR = -pitch*kp*0.5 + roll*kp*0.5, and leaves the controller as
    [get_angles] leaves it. *)
Theorem get_correction_formula :
  forall self : BalanceController,
    let pitch := fst (fst (get_angles self)) in
    let roll := snd (fst (get_angles self)) in
    let corrections := fst (get_correction self) in
    corrections FL = - pitch * kp self - roll * kp self * 0.5
    /\ corrections FR = - pitch * kp self + roll * kp self * 0.5
    /\ corrections RL = - pitch * kp self * 0.5 - roll * kp self * 0.5
    /\ corrections RR = - pitch * kp self * 0.5 + roll * kp self * 0.5
    /\ snd (get_correction self) = snd (get_angles self).
Proof.
  intros self. cbv zeta. unfold get_correction.
  pose proof (get_angles_kp self) as Hkp.
  destruct (get_angles self) as [[pitch roll] self1]. simpl in *.
  rewrite Hkp. repeat split.
Qed.

(** *** Further properties of the balance controller *)

Lemma Rpy_clamp_bounds (lo hi x : R) :
  lo <= hi -> lo <= Rpy_max lo (Rpy_min hi x) <= hi.
Proof.
  intros Hle. unfold Rpy_max, Rpy_min.
  destruct (Rlt_dec x hi); destruct (Rlt_dec lo _); lra.
Qed.

Lemma Rpy_clamp_id (lo hi x : R) :
  lo <= x <= hi -> Rpy_max lo (Rpy_min hi x) = x.
Proof.
  intros Hin. unfold Rpy_max, Rpy_min.
  destruct (Rlt_dec x hi); destruct (Rlt_dec lo _); lra.
Qed.

(** [get_correction], written out. *)
Lemma get_correction_eq (self : BalanceController) (l : Leg) :
  fst (get_correction self) l
  = let pitch := fst (fst (get_angles self)) in
    let roll := snd (fst (get_angles self)) in
    let k := kp self in
    match l with
    | FL => - pitch * k - roll * k * 0.5
    | FR => - pitch * k + roll * k * 0.5
    | RL => - pitch * k * 0.5 - roll * k * 0.5
    | RR => - pitch * k * 0.5 + roll * k * 0.5
    end.
Proof.
  unfold get_correction. pose proof (get_angles_kp self) as Hkp.
  destruct (get_angles self) as [[pitch roll] self1]. simpl in *.
  now rewrite Hkp.
Qed.

(** X16: [set_kp] keeps the gain within [0, 2], taking a value of that
    range as it is; with such a gain no leg correction exceeds
    2*|pitch| + |roll| in magnitude. *)
Theorem set_kp_bounds_correction :
  forall (self : BalanceController) (k : R),
    0 <= kp (set_kp self k) <= 2
    /\ (0 <= k <= 2 -> kp (set_kp self k) = k)
    /\ forall l : Leg,
         let pitch := fst (fst (get_angles (set_kp self k))) in
         let roll := snd (fst (get_angles (set_kp self k))) in
         Rabs (fst (get_correction (set_kp self k)) l)
         <= 2 * Rabs pitch + Rabs roll.
Proof.
  intros self k.
  assert (Hk : 0 <= kp (set_kp self k) <= 2)
    by (simpl; apply Rpy_clamp_bounds; lra).
  split; [exact Hk|]. split; [intros Hin; simpl; now apply Rpy_clamp_id|].
  intros l. cbv zeta. rewrite get_correction_eq. cbv zeta.
  set (pitch := fst (fst (get_angles (set_kp self k)))).
  set (roll := snd (fst (get_angles (set_kp self k)))).
  set (g := kp (set_kp self k)) in *.
  assert (Hp := Rabs_pos pitch). assert (Hr := Rabs_pos roll).
  assert (Hpg : Rabs (pitch * g) <= 2 * Rabs pitch).
  { rewrite Rabs_mult, (Rabs_right g) by lra. nra. }
  assert (Hrg : Rabs (roll * g) <= 2 * Rabs roll).
  { rewrite Rabs_mult, (Rabs_right g) by lra. nra. }
  revert Hpg Hrg. unfold Rabs.
  destruct l; repeat destruct (Rcase_abs _); intros; lra.
Qed.

(** X17: the corrections mirror the tilt.  Of two controllers with the
    same gain, one rolled as far to the other side gets the corrections of
    the first with left and right swapped, and one tilted the other way in
    pitch and in roll gets the opposite corrections.  Without roll the two
    legs of a pair get the same correction, -pitch*kp in front and half of
    it behind; without pitch the front and the rear leg of a side get the
    same one, roll*kp*0.5 on the right and its opposite on the left.  With
    a gain that is not negative, a roll to the right never gives a left
    leg more than the right leg of its pair, and a pitch forward never
    gives a front leg more than the rear leg of its side. *)
Theorem get_correction_symmetry :
  forall self self' : BalanceController,
    kp self' = kp self ->
    let pitch := fst (fst (get_angles self)) in
    let roll := snd (fst (get_angles self)) in
    let pitch' := fst (fst (get_angles self')) in
    let roll' := snd (fst (get_angles self')) in
    let c := fst (get_correction self) in
    let c' := fst (get_correction self') in
    (pitch' = pitch -> roll' = - roll ->
     c' FL = c FR /\ c' FR = c FL /\ c' RL = c RR /\ c' RR = c RL)
    /\ (pitch' = - pitch -> roll' = - roll -> forall l : Leg, c' l = - c l)
    /\ (roll = 0 ->
        c FL = - pitch * kp self /\ c FR = c FL
        /\ c RL = - pitch * kp self * 0.5 /\ c RR = c RL)
    /\ (pitch = 0 ->
        c FR = roll * kp self * 0.5 /\ c FL = - c FR
        /\ c RR = c FR /\ c RL = c FL)
    /\ (0 <= roll -> 0 <= kp self -> c FL <= c FR /\ c RL <= c RR)
    /\ (0 <= pitch -> 0 <= kp self -> c FL <= c RL /\ c FR <= c RR).
Proof.
  intros self self' Hkp. cbv zeta.
  rewrite !get_correction_eq. cbv zeta. rewrite Hkp.
  set (pitch := fst (fst (get_angles self))).
  set (roll := snd (fst (get_angles self))).
  split; [intros -> ->; repeat split; lra|].
  split; [intros Hp Hr l; rewrite !get_correction_eq; cbv zeta;
          rewrite Hp, Hr, Hkp; unfold pitch, roll; destruct l; lra|].
  split; [intros Hr; rewrite Hr; repeat split; lra|].
  split; [intros Hp; rewrite Hp; repeat split; lra|].
  split; intros H0 Hk.
  - pose proof (Rmult_le_pos _ _ H0 Hk). split; lra.
  - pose proof (Rmult_le_pos _ _ H0 Hk). split; lra.
Qed.

(** X17 on two controllers whose filters hold a pitch of 4 and a roll of
    8 to either side: the front left leg of the one gets what the front
    right leg of the other gets. *)
Lemma get_correction_symmetry_witness :
  fst (get_correction (tilted 4 (-8))) FL = fst (get_correction (tilted 4 8)) FR
  /\ fst (get_correction (tilted 4 (-8))) FR
     = fst (get_correction (tilted 4 8)) FL.
Proof.
  destruct (get_correction_symmetry (tilted 4 8) (tilted 4 (-8)) eq_refl)
    as (Hmirror & _).
  destruct Hmirror as (H1 & H2 & _).
  - simpl. lra.
  - simpl. lra.
  - split; [exact H1 | exact H2].
Defined.

(** [get_angles], written out. *)
Lemma get_angles_eq (self : BalanceController) :
  get_angles self
  = let raw := fst (_read_raw_angles self) in
    let self1 := snd (_read_raw_angles self) in
    let pitch := _alpha self1 * target_pitch self1 (fst raw)
                 + (1 - _alpha self1) * _last_pitch self1 in
    let roll := _alpha self1 * target_roll self1 (snd raw)
                + (1 - _alpha self1) * _last_roll self1 in
    ((pitch, roll), with_last self1 pitch roll).
Proof.
  unfold get_angles. now destruct (_read_raw_angles self) as [[rp rr] self1].
Qed.

(** Reading the sensor leaves the calibration and the filter alone. *)
Lemma read_raw_angles_frame (self : BalanceController) :
  let self1 := snd (_read_raw_angles self) in
  pitch_offset self1 = pitch_offset self
  /\ roll_offset self1 = roll_offset self
  /\ pitch_gain self1 = pitch_gain self
  /\ roll_gain self1 = roll_gain self
  /\ _alpha self1 = _alpha self
  /\ _last_pitch self1 = _last_pitch self
  /\ _last_roll self1 = _last_roll self
  /\ simulation_mode self1 = simulation_mode self.
Proof.
  cbv zeta. unfold _read_raw_angles.
  destruct (simulation_mode self) eqn:Hsim;
    [simpl; repeat split; exact Hsim|].
  destruct (imu self) as [dev|]; [|simpl; repeat split; exact Hsim].
  destruct (get_accel_data dev) as [[accel|] dev'];
    [|simpl; repeat split; exact Hsim].
  destruct (bad_reading accel); simpl; repeat split; exact Hsim.
Qed.

(** X18: [get_angles] smooths and never overshoots: with the filter
    coefficient 0.25 that [__init__] sets, the filtered pitch it returns
    lies between the filtered pitch of the call before and the calibrated
    reading (raw - offset) * gain, and the same for the roll; what it
    returns is what it stores for the next call, and the coefficient, the
    gain and the calibration stay as they were. *)
Theorem get_angles_filter :
  forall self : BalanceController,
    _alpha self = 0.25 ->
    let raw := fst (_read_raw_angles self) in
    let pitch := fst (fst (get_angles self)) in
    let roll := snd (fst (get_angles self)) in
    let self' := snd (get_angles self) in
    Rmin (_last_pitch self) (target_pitch self (fst raw)) <= pitch
    <= Rmax (_last_pitch self) (target_pitch self (fst raw))
    /\ Rmin (_last_roll self) (target_roll self (snd raw)) <= roll
       <= Rmax (_last_roll self) (target_roll self (snd raw))
    /\ _last_pitch self' = pitch
    /\ _last_roll self' = roll
    /\ _alpha self' = 0.25
    /\ kp self' = kp self
    /\ pitch_offset self' = pitch_offset self
    /\ roll_offset self' = roll_offset self
    /\ pitch_gain self' = pitch_gain self
    /\ roll_gain self' = roll_gain self.
Proof.
  intros self Halpha. cbv zeta.
  pose proof (get_angles_kp self) as Hkp.
  rewrite get_angles_eq in *. cbv zeta in *. simpl in *.
  destruct (read_raw_angles_frame self)
    as (Hpo & Hro & Hpg & Hrg & Ha & Hlp & Hlr & _).
  unfold target_pitch, target_roll.
  rewrite Hpo, Hro, Hpg, Hrg, Ha, Hlp, Hlr, Halpha.
  set (tp := (fst (fst (_read_raw_angles self)) - pitch_offset self)
             * pitch_gain self).
  set (tr := (snd (fst (_read_raw_angles self)) - roll_offset self)
             * roll_gain self).
  split; [unfold Rmin, Rmax; destruct (Rle_dec (_last_pitch self) tp);
          split; lra|].
  split; [unfold Rmin, Rmax; destruct (Rle_dec (_last_roll self) tr);
          split; lra|].
  repeat split; try reflexivity; assumption.
Qed.

(** X18 on a new controller over a level robot. *)
Lemma get_angles_filter_witness :
  _last_pitch (snd (get_angles (controller_on level)))
  = fst (fst (get_angles (controller_on level)))
  /\ _alpha (snd (get_angles (controller_on level))) = 0.25.
Proof.
  destruct (get_angles_filter (controller_on level) eq_refl)
    as (_ & _ & Hp & _ & Ha & _).
  split; [exact Hp | exact Ha].
Defined.

(** X19: with a working sensor object, the pair [_read_raw_angles]
    returns is always the last-good pair it leaves stored, and the sensor
    has been read once; when that read raises, the pair is the one stored
    before, which stays. *)
Theorem read_raw_angles_returns_stored :
  forall (self : BalanceController) (dev : Imu),
    simulation_mode self = false ->
    imu self = Some dev ->
    let self' := snd (_read_raw_angles self) in
    fst (_read_raw_angles self) = (_last_raw_pitch self', _last_raw_roll self')
    /\ imu self' = Some (snd (get_accel_data dev))
    /\ (samples dev (reads dev) = ReadError ->
        fst (_read_raw_angles self)
        = (_last_raw_pitch self, _last_raw_roll self)
        /\ _last_raw_pitch self' = _last_raw_pitch self
        /\ _last_raw_roll self' = _last_raw_roll self).
Proof.
  intros self dev Hsim Himu. cbv zeta. unfold _read_raw_angles.
  rewrite Hsim, Himu. unfold get_accel_data.
  destruct (samples dev (reads dev)) as [accel|].
  - destruct (bad_reading accel); simpl;
      (split; [reflexivity|]; split; [reflexivity|]; discriminate).
  - simpl. repeat split.
Qed.

Lemma read_raw_angles_returns_stored_witness :
  fst (_read_raw_angles controller_flaky) = (1.5, -2)
  /\ _last_raw_pitch (snd (_read_raw_angles controller_flaky)) = 1.5.
Proof.
  destruct (read_raw_angles_returns_stored controller_flaky
              (get_accel_data_n 3 flaky_imu) eq_refl eq_refl)
    as (_ & _ & Herr).
  destruct (Herr eq_refl) as (Hret & Hp & _).
  split; [exact Hret | exact Hp].
Defined.

(** Without a sensor the filter stays where it is when it is at zero. *)
Lemma get_angles_simulated (self : BalanceController) :
  simulation_mode self = true ->
  pitch_offset self = 0 -> roll_offset self = 0 ->
  _last_pitch self = 0 -> _last_roll self = 0 ->
  fst (get_angles self) = (0, 0)
  /\ simulation_mode (snd (get_angles self)) = true
  /\ pitch_offset (snd (get_angles self)) = 0
  /\ roll_offset (snd (get_angles self)) = 0
  /\ _last_pitch (snd (get_angles self)) = 0
  /\ _last_roll (snd (get_angles self)) = 0.
Proof.
  intros Hsim Hpo Hro Hlp Hlr. unfold get_angles, _read_raw_angles.
  rewrite Hsim. simpl. rewrite Hpo, Hro, Hlp, Hlr.
  assert (Hp : _alpha self * ((0 - 0) * pitch_gain self)
               + (1 - _alpha self) * 0 = 0) by lra.
  assert (Hr : _alpha self * ((0 - 0) * roll_gain self)
               + (1 - _alpha self) * 0 = 0) by lra.
  rewrite Hp, Hr. repeat split; assumption.
Qed.

(** X20: a controller built without a sensor (the package missing, or the
    device failing to open) reports a level body for ever: after any
    number of [get_angles] calls the angles are (0, 0) and every leg
    correction is 0. *)
Theorem simulated_controller_is_level :
  forall (MPU_AVAILABLE : bool) (n : nat) (l : Leg),
    let self := get_angles_n n (BalanceController_init MPU_AVAILABLE None) in
    fst (get_angles self) = (0, 0)
    /\ fst (get_correction self) l = 0.
Proof.
  intros avail n l. cbv zeta.
  set (self0 := BalanceController_init avail None).
  assert (H0 : simulation_mode self0 = true /\ pitch_offset self0 = 0
               /\ roll_offset self0 = 0 /\ _last_pitch self0 = 0
               /\ _last_roll self0 = 0)
    by (unfold self0; destruct avail; repeat split).
  clearbody self0. revert self0 H0.
  induction n as [|n IH]; intros self0 (Hsim & Hpo & Hro & Hlp & Hlr).
  - simpl.
    destruct (get_angles_simulated self0 Hsim Hpo Hro Hlp Hlr) as (Ha & _).
    split; [exact Ha|]. rewrite get_correction_eq. cbv zeta. rewrite Ha.
    simpl. destruct l; lra.
  - simpl. apply IH.
    destruct (get_angles_simulated self0 Hsim Hpo Hro Hlp Hlr)
      as (_ & H1 & H2 & H3 & H4 & H5).
    repeat split; assumption.
Qed.

(** Reading a working sensor object advances it by one read. *)
Lemma read_raw_angles_imu (self : BalanceController) (dev : Imu) :
  simulation_mode self = false ->
  imu self = Some dev ->
  imu (snd (_read_raw_angles self)) = Some (snd (get_accel_data dev)).
Proof.
  intros Hsim Himu. unfold _read_raw_angles. rewrite Hsim, Himu.
  unfold get_accel_data. destruct (samples dev (reads dev)) as [accel|];
    [destruct (bad_reading accel)|]; reflexivity.
Qed.

Lemma get_accel_data_n_reads (n : nat) :
  forall dev : Imu, reads (get_accel_data_n n dev) = (reads dev + n)%nat.
Proof.
  induction n as [|n IH]; intros dev; simpl; [lia|].
  rewrite IH. simpl. lia.
Qed.

(** The sampling loop of [calibrate] reads the sensor once per sample
    and leaves the gain and the filter alone. *)
Lemma calibrate_loop_frame (n : nat) :
  forall (self : BalanceController) (pitch_sum roll_sum : R),
    let self1 := snd (calibrate_loop n self pitch_sum roll_sum) in
    simulation_mode self1 = simulation_mode self
    /\ kp self1 = kp self
    /\ _last_pitch self1 = _last_pitch self
    /\ _last_roll self1 = _last_roll self
    /\ (simulation_mode self = false ->
        forall dev : Imu,
          imu self = Some dev -> imu self1 = Some (get_accel_data_n n dev)).
Proof.
  induction n as [|n IH]; intros self ps rs; cbv zeta.
  - simpl. repeat split. intros _ dev Himu. exact Himu.
  - cbn [calibrate_loop].
    destruct (read_raw_angles_frame self)
      as (_ & _ & _ & _ & _ & Hlp & Hlr & Hsim).
    pose proof (read_raw_angles_kp self) as Hkp.
    pose proof (read_raw_angles_imu self) as Himu.
    destruct (_read_raw_angles self) as [[p r] self1]. simpl in *.
    destruct (IH self1 (ps + p) (rs + r)) as (H1 & H2 & H3 & H4 & H5).
    split; [congruence|]. split; [congruence|]. split; [congruence|].
    split; [congruence|].
    intros Hs dev Hdev. simpl.
    apply H5; [congruence|]. now apply Himu.
Qed.

(** X21: [calibrate] without a sensor sets both offsets to zero, whatever
    the number of samples.  With the simulation off, zero samples end in
    a [ZeroDivisionError]; a negative number of samples reads nothing and
    sets both offsets to zero; one sample makes the raw angles of its
    single reading the offsets; and any positive number of samples reads
    the sensor object exactly that many times and leaves the gain and the
    filtered angles as they were. *)
Theorem calibrate_offsets :
  (forall (self : BalanceController) (samples : Z),
      simulation_mode self = true ->
      calibrate self samples = Some (with_offsets self 0 0))
  /\ (forall self : BalanceController,
         simulation_mode self = false -> calibrate self 0 = None)
  /\ (forall (self : BalanceController) (samples : Z),
         simulation_mode self = false ->
         (samples < 0)%Z ->
         calibrate self samples = Some (with_offsets self 0 0))
  /\ (forall self : BalanceController,
         simulation_mode self = false ->
         calibrate self 1
         = Some (with_offsets (snd (_read_raw_angles self))
                   (fst (fst (_read_raw_angles self)))
                   (snd (fst (_read_raw_angles self)))))
  /\ (forall (self : BalanceController) (dev : Imu) (samples : Z),
         simulation_mode self = false ->
         imu self = Some dev ->
         (1 <= samples)%Z ->
         exists self' : BalanceController,
           calibrate self samples = Some self'
           /\ imu self' = Some (get_accel_data_n (Z.to_nat samples) dev)
           /\ imu_reads self' = (reads dev + Z.to_nat samples)%nat
           /\ simulation_mode self' = false
           /\ kp self' = kp self
           /\ _last_pitch self' = _last_pitch self
           /\ _last_roll self' = _last_roll self).
Proof.
  split; [|split; [|split; [|split]]].
  - intros self samples Hsim. unfold calibrate. now rewrite Hsim.
  - intros self Hsim. unfold calibrate. rewrite Hsim. simpl.
    now destruct (calibrate_loop 0 self 0 0) as [[ps rs] s'].
  - intros self samples Hsim Hneg. unfold calibrate. rewrite Hsim.
    replace (Z.to_nat samples) with 0%nat by lia. simpl.
    destruct (Z.eqb_spec samples 0) as [?|_]; [lia|].
    unfold Rdiv. now rewrite Rmult_0_l.
  - intros self Hsim. unfold calibrate. rewrite Hsim.
    change (Z.to_nat 1) with 1%nat. cbn [calibrate_loop].
    destruct (_read_raw_angles self) as [[p r] self1]. simpl.
    do 2 f_equal; lra.
  - intros self dev samples Hsim Himu Hpos. unfold calibrate. rewrite Hsim.
    destruct (calibrate_loop_frame (Z.to_nat samples) self 0 0)
      as (H1 & H2 & H3 & H4 & H5).
    specialize (H5 Hsim dev Himu).
    destruct (calibrate_loop (Z.to_nat samples) self 0 0) as [[ps rs] self1].
    simpl in *.
    destruct (Z.eqb_spec samples 0) as [?|_]; [lia|].
    eexists. split; [reflexivity|]. unfold imu_reads. simpl. rewrite H5.
    split; [reflexivity|]. split; [apply get_accel_data_n_reads|].
    split; [congruence|]. repeat split; assumption.
Qed.

(** X21 on a new controller over a level robot: the three warm-up reads
    of [__init__] and the thirty of [calibrate] make thirty-three. *)
Lemma calibrate_offsets_witness :
  exists self' : BalanceController,
    calibrate (controller_on level) 30%Z = Some self'
    /\ imu_reads self' = 33%nat.
Proof.
  destruct (proj2 (proj2 (proj2 (proj2 calibrate_offsets)))
              (controller_on level)
              (get_accel_data_n 3 (imu_reading (Sample level))) 30%Z
              eq_refl eq_refl ltac:(lia))
    as (self' & Hcal & _ & Hreads & _).
  exists self'. split; [exact Hcal | exact Hreads].
Defined.

(** [math.atan2] stays within half a turn, and within a quarter turn when
    its second argument is not negative. *)
Lemma atan2_range (y x : R) : - PI < atan2 y x <= PI.
Proof.
  pose proof PI_RGT_0 as HPI. pose proof (atan_bound (y / x)) as Hb.
  unfold atan2.
  destruct (Rlt_dec 0 x) as [Hx|Hx]; [lra|].
  destruct (Rlt_dec x 0) as [Hx'|Hx'].
  - assert (Hinv : / x < 0) by now apply Rinv_lt_0_compat.
    destruct (Rle_dec 0 y) as [Hy|Hy].
    + assert (y / x <= 0) by (unfold Rdiv; nra).
      assert (atan (y / x) <= 0).
      { rewrite <- atan_0. destruct (Req_dec (y / x) 0) as [->|Hne];
          [lra|]. left. apply atan_increasing. lra. }
      lra.
    + assert (0 < y / x) by (unfold Rdiv; nra).
      assert (0 < atan (y / x))
        by (rewrite <- atan_0; now apply atan_increasing).
      lra.
  - destruct (Rlt_dec 0 y); [lra|]. destruct (Rlt_dec y 0); lra.
Qed.

Lemma atan2_quarter (y x : R) :
  0 <= x -> - (PI / 2) <= atan2 y x <= PI / 2.
Proof.
  intros Hx. pose proof PI_RGT_0 as HPI.
  pose proof (atan_bound (y / x)) as Hb. unfold atan2.
  destruct (Rlt_dec 0 x); [lra|].
  destruct (Rlt_dec x 0); [lra|].
  destruct (Rlt_dec 0 y); [lra|]. destruct (Rlt_dec y 0); lra.
Qed.

(** X22: the raw pitch of a sample never exceeds a quarter turn (scaled to
    degrees) and the raw roll never leaves half a turn; with gravity
    straight down the body (ax = ay = 0, az positive) both are zero, and a
    robot lying on its side reads the full quarter turn of pitch. *)
Theorem raw_angles_range :
  forall accel : Accel,
    - (PI / 2) * 57.2958 <= raw_pitch accel <= PI / 2 * 57.2958
    /\ - PI * 57.2958 <= raw_roll accel <= PI * 57.2958
    /\ (ax accel = 0 -> ay accel = 0 -> 0 < az accel ->
        raw_pitch accel = 0 /\ raw_roll accel = 0)
    /\ raw_pitch on_its_side = PI / 2 * 57.2958.
Proof.
  intros accel. unfold raw_pitch, raw_roll.
  pose proof (atan2_quarter (ay accel) (sqrt (ax accel ^ 2 + az accel ^ 2))
                (sqrt_pos _)) as Hp.
  pose proof (atan2_range (- ax accel) (az accel)) as Hr.
  split; [lra|]. split; [lra|]. split.
  - intros Hx Hy Hz. rewrite Hx, Hy.
    assert (Hs : 0 < sqrt (0 ^ 2 + az accel ^ 2))
      by (apply sqrt_lt_R0; nra).
    unfold atan2.
    destruct (Rlt_dec 0 (sqrt (0 ^ 2 + az accel ^ 2))); [|contradiction].
    destruct (Rlt_dec 0 (az accel)); [|contradiction].
    unfold Rdiv. rewrite Ropp_0, !Rmult_0_l, atan_0. lra.
  - simpl. replace (0 * (0 * 1) + 0 * (0 * 1)) with 0 by lra.
    rewrite sqrt_0. unfold atan2.
    destruct (Rlt_dec 0 0); [lra|]. destruct (Rlt_dec 0 9.8); [reflexivity|lra].
Qed.

End BalanceFacts.

(** ** Gait controller *)
Module GaitFacts.

Import Floats.
Import Gait.
Local Open Scope R_scope.
Local Set Warnings "-inexact-float".






Lemma GaitController_init_eq : GaitController_init = Some gait0.
Proof. reflexivity. Qed.


Lemma ankle_comp_table :
  forallb ankle_comp_ok (map Z.of_nat (seq 0 81)) = true.
Proof. vm_compute. reflexivity. Qed.

Lemma ankle_comp_floor (k : Z) :
  (0 <= k <= 80)%Z ->
  py_int (PrimFloat.mul (float_of_int k) DEFAULT_ANKLE_COMPENSATION)
  = Some (13 * k / 10)%Z.
Proof.
  intros Hk.
  pose proof ankle_comp_table as Htable.
  rewrite forallb_forall in Htable.
  assert (Hin : In k (map Z.of_nat (seq 0 81))).
  { apply in_map_iff. exists (Z.to_nat k). split; [lia|].
    apply in_seq. lia. }
  specialize (Htable k Hin). unfold ankle_comp_ok in Htable.
  destruct (py_int _) as [v|]; [|discriminate].
  apply Z.eqb_eq in Htable. now subst.
Qed.

(** [set_stand_height] never raises. *)
Lemma set_stand_height_eq (self : GaitController) (knee_bend : Z) :
  set_stand_height self knee_bend
  = Some (stand_at self (Z.max 0 (Z.min 80 knee_bend))).
Proof.
  unfold set_stand_height. rewrite py_max_spec, py_min_spec.
  rewrite ankle_comp_floor by lia. reflexivity.
Qed.

(** C6, as stated, fails: at a knee bend of 1 the ankle is 91, not
    90 + 1*1.3; the product is truncated to whole degrees. *)
Lemma stand_ankle_truncated :
  exists self' : GaitController,
    set_stand_height gait0 1 = Some self'
    /\ ankle (get_stand_angles self' FL) = 91%Z
    /\ IZR (ankle (get_stand_angles self' FL)) <> 90 + 1 * 1.3.
Proof.
  exists (stand_at gait0 1).
  split; [apply (set_stand_height_eq gait0 1)|].
  assert (Hankle : ankle (get_stand_angles (stand_at gait0 1) FL) = 91%Z)
    by reflexivity.
  split; [exact Hankle|]. rewrite Hankle. lra.
Qed.

(** C6 (amended): [set_stand_height] clamps the knee bend to [0, 80] and
    sets, for every leg, hip = 90, knee = 90 - kneeBend and
    ankle = 90 + int(kneeBend*1.3), the product truncated to whole degrees
    (floor(13*kneeBend/10)), plus the leg's fixed rear-ankle correction;
    after [set_stand_height(40)] on a fresh controller every leg has
    hip = 90, knee = 50 and ankle = 142. *)
Theorem set_stand_height_pose :
  (forall (self : GaitController) (knee_bend : Z),
      let bend := Z.max 0 (Z.min 80 knee_bend) in
      exists self' : GaitController,
        set_stand_height self knee_bend = Some self'
        /\ forall l : Leg,
             hip (get_stand_angles self' l) = 90%Z
             /\ knee (get_stand_angles self' l) = (90 - bend)%Z
             /\ ankle (get_stand_angles self' l)
                = (90 + 13 * bend / 10 + rear_ankle_correction self l)%Z)
  /\ (exists self' : GaitController,
         set_stand_height gait0 40 = Some self'
         /\ forall l : Leg,
              get_stand_angles self' l
              = {| hip := 90; knee := 50; ankle := 142 |}).
Proof.
  split.
  - intros self knee_bend. cbv zeta.
    eexists. split; [apply set_stand_height_eq|].
    intros l. unfold get_stand_angles, stand_at. cbn [stand_angles].
    destruct l; cbn [build_stand_angles hip knee ankle rear_ankle_correction];
      repeat split; lia.
  - exists (stand_at gait0 40).
    split; [apply (set_stand_height_eq gait0 40)|].
    intros l. destruct l; reflexivity.
Qed.

(** *** Further properties of the gait controller *)

Lemma Rpy_clamp_sign (x : R) :
  (0 <= x -> 0 <= Balance.Rpy_max (-1) (Balance.Rpy_min 1 x))
  /\ (x <= 0 -> Balance.Rpy_max (-1) (Balance.Rpy_min 1 x) <= 0).
Proof.
  unfold Balance.Rpy_max, Balance.Rpy_min.
  destruct (Rlt_dec x 1); destruct (Rlt_dec (-1) _); split; lra.
Qed.

(** X23: [set_turn_rate] and [set_lateral_rate] keep their rate within
    [-1, 1], taking a value of that range as it is.  The stride factor of
    a leg then lies within [0.5, 1.5]; the two legs of a side share it and
    the two sides add up to 2; with a turn rate that is not negative the
    left legs never step longer, and the right legs never shorter, than
    without turning, and the other way round with one that is not
    positive. *)
Theorem set_turn_rate_stride :
  forall (self : GaitController) (rate : R) (l : Leg),
    let self' := set_turn_rate self rate in
    -1 <= turn_rate self' <= 1
    /\ -1 <= lateral_rate (set_lateral_rate self rate) <= 1
    /\ (-1 <= rate <= 1 ->
        turn_rate self' = rate
        /\ lateral_rate (set_lateral_rate self rate) = rate)
    /\ 0.5 <= stride_mult self' l <= 1.5
    /\ stride_mult self' RL = stride_mult self' FL
    /\ stride_mult self' RR = stride_mult self' FR
    /\ stride_mult self' FL + stride_mult self' FR = 2
    /\ (0 <= rate -> stride_mult self' FL <= 1 <= stride_mult self' FR)
    /\ (rate <= 0 -> stride_mult self' FR <= 1 <= stride_mult self' FL).
Proof.
  intros self rate l. cbv zeta.
  pose proof (BalanceFacts.Rpy_clamp_bounds (-1) 1 rate ltac:(lra)) as Hb.
  pose proof (Rpy_clamp_sign rate) as [Hpos Hneg].
  unfold stride_mult. simpl.
  set (t := Balance.Rpy_max (-1) (Balance.Rpy_min 1 rate)) in *.
  split; [exact Hb|]. split; [exact Hb|].
  split; [intros Hin; unfold t; rewrite BalanceFacts.Rpy_clamp_id by exact Hin;
          split; reflexivity|].
  split; [destruct l; simpl; lra|].
  repeat split; lra.
Qed.

(** X24: the easing maps every time, also one outside [0, 1], into
    [0, 1]: the swing phase the gait loop passes on is always a phase. *)
Theorem smooth_phase_range :
  forall t : R, 0 <= _smooth_phase t <= 1.
Proof.
  intros t. unfold _smooth_phase.
  pose proof (COS_bound (t * PI)) as Hc. lra.
Qed.

(** X25: [set_stand_height] changes the stand pose only; whatever knee
    bend is asked, the knee ends within [10, 90] and the ankle, its rear
    correction apart, within [90, 194], above the servo range of 180 as
    soon as the knee bend exceeds 69; a larger knee bend never gives a
    larger knee angle or a smaller ankle angle; and setting the same
    height again changes nothing. *)
Theorem set_stand_height_range :
  forall (self : GaitController) (knee_bend : Z),
    exists self' : GaitController,
      set_stand_height self knee_bend = Some self'
      /\ params self' = params self
      /\ direction self' = direction self
      /\ turn_rate self' = turn_rate self
      /\ lateral_rate self' = lateral_rate self
      /\ set_stand_height self' knee_bend = Some self'
      /\ (forall l : Leg,
             (10 <= knee (stand_angles self' l) <= 90)%Z
             /\ (90 <= ankle (stand_angles self' l)
                       - rear_ankle_correction self l <= 194)%Z
             /\ ((ankle (stand_angles self' l) - rear_ankle_correction self l
                  <= 180)%Z <-> (knee_bend <= 69)%Z))
      /\ (forall (larger : Z) (l : Leg),
             (knee_bend <= larger)%Z ->
             exists self2 : GaitController,
               set_stand_height self larger = Some self2
               /\ (knee (stand_angles self2 l)
                   <= knee (stand_angles self' l))%Z
               /\ (ankle (stand_angles self' l)
                   <= ankle (stand_angles self2 l))%Z).
Proof.
  intros self knee_bend.
  exists (stand_at self (Z.max 0 (Z.min 80 knee_bend))).
  split; [apply set_stand_height_eq|].
  repeat (split; [reflexivity|]).
  split; [now rewrite set_stand_height_eq|].
  split.
  - intros l. unfold stand_at. cbn [stand_angles].
    set (b := Z.max 0 (Z.min 80 knee_bend)).
    assert (Hb : (0 <= b <= 80)%Z /\ ((b <= 69)%Z <-> (knee_bend <= 69)%Z))
      by (unfold b; lia).
    pose proof (Z.div_mod (13 * b) 10 ltac:(lia)) as Hdm.
    pose proof (Z.mod_pos_bound (13 * b) 10 ltac:(lia)) as Hmod.
    destruct l;
      cbn [build_stand_angles knee ankle rear_ankle_correction]; lia.
  - intros larger l Hle.
    exists (stand_at self (Z.max 0 (Z.min 80 larger))).
    split; [apply set_stand_height_eq|].
    unfold stand_at. cbn [stand_angles].
    assert (Hdiv : (13 * Z.max 0 (Z.min 80 knee_bend) / 10
                    <= 13 * Z.max 0 (Z.min 80 larger) / 10)%Z)
      by (apply Z.div_le_mono; lia).
    destruct l; cbn [build_stand_angles knee ankle]; lia.
Qed.

Lemma LegAngles_eq (a b : LegAngles) :
  hip_angle a = hip_angle b -> knee_angle a = knee_angle b ->
  ankle_angle a = ankle_angle b -> a = b.
Proof. destruct a, b. simpl. now intros -> -> ->. Qed.

(** The angles of a swinging leg, in closed form. *)
Lemma swing_closed (self : GaitController) (phase : R) (l : Leg)
    (step_h step_l : R) :
  stepping self step_h step_l ->
  exists a : LegAngles,
    _leg_angles_swing self phase l = Some a
    /\ hip_angle a
       = IZR (hip (stand_angles self l))
         + lateral_sign l * LATERAL_STEP_ANGLE * lateral_rate self
           * sin (phase * PI)
    /\ knee_angle a
       = IZR (knee (stand_angles self l)) - step_h * sin (phase * PI)
         + swing_fwd self step_l phase l * KNEE_FORWARD_RATIO
    /\ ankle_angle a
       = IZR (ankle (stand_angles self l))
         + step_h * sin (phase * PI) * ANKLE_LIFT_RATIO
         + swing_fwd self step_l phase l * ANKLE_FORWARD_RATIO.
Proof.
  intros [Hh Hl]. unfold _leg_angles_swing. rewrite Hh, Hl. simpl.
  eexists. split; [reflexivity|]. simpl.
  unfold swing_fwd, lateral_sign, HIP_SWING_ANGLE.
  split; [|split; lra].
  destruct (Req_dec_T (lateral_rate self) 0) as [->|_];
    destruct (is_left l); lra.
Qed.

(** The angles of a standing leg, in closed form. *)
Lemma stance_closed (self : GaitController) (phase : R) (l : Leg)
    (step_h step_l : R) :
  stepping self step_h step_l ->
  exists a : LegAngles,
    _leg_angles_stance self phase l = Some a
    /\ hip_angle a
       = IZR (hip (stand_angles self l))
         - lateral_sign l * LATERAL_STEP_ANGLE * lateral_rate self
           * (1 - phase)
    /\ knee_angle a
       = IZR (knee (stand_angles self l))
         + stance_fwd self step_l phase l * KNEE_FORWARD_RATIO
    /\ ankle_angle a
       = IZR (ankle (stand_angles self l))
         + stance_fwd self step_l phase l * ANKLE_FORWARD_RATIO.
Proof.
  intros [Hh Hl]. unfold _leg_angles_stance. rewrite Hl. simpl.
  eexists. split; [reflexivity|]. simpl.
  unfold stance_fwd, lateral_sign, HIP_SWING_ANGLE.
  split; [|split; lra].
  destruct (Req_dec_T (lateral_rate self) 0) as [->|_];
    destruct (is_left l); lra.
Qed.

(** X26: a leg leaves the ground in the pose in which its stance ended:
    for every leg, direction, turn rate and lateral rate the angles at
    lift-off (swing phase 0) are those at the end of the stance (stance
    phase 1), with the hip at its stand angle. *)
Theorem swing_stance_continuity :
  forall (self : GaitController) (l : Leg) (step_h step_l : R),
    stepping self step_h step_l ->
    exists lift_off stance_end : LegAngles,
      _leg_angles_swing self 0 l = Some lift_off
      /\ _leg_angles_stance self 1 l = Some stance_end
      /\ lift_off = stance_end
      /\ hip_angle lift_off = IZR (hip (stand_angles self l)).
Proof.
  intros self l step_h step_l Hstep.
  destruct (swing_closed self 0 l step_h step_l Hstep)
    as (a0 & Ha0 & Hh0 & Hk0 & Hn0).
  destruct (stance_closed self 1 l step_h step_l Hstep)
    as (b1 & Hb1 & Hbh1 & Hbk1 & Hbn1).
  exists a0, b1. repeat (split; [assumption|]).
  rewrite Rmult_0_l, sin_0 in *.
  unfold swing_fwd, stance_fwd in *.
  split; [apply LegAngles_eq; lra | lra].
Qed.

Lemma gait0_stepping : stepping gait0 36 20.
Proof. split; reflexivity. Qed.

(** X26 on a new controller stepping to the right at full rate. *)
Lemma swing_stance_continuity_witness :
  exists lift_off stance_end : LegAngles,
    _leg_angles_swing (with_lateral_rate gait0 1) 0 FL = Some lift_off
    /\ _leg_angles_stance (with_lateral_rate gait0 1) 1 FL = Some stance_end
    /\ lift_off = stance_end
    /\ hip_angle lift_off = 90.
Proof.
  destruct (swing_stance_continuity (with_lateral_rate gait0 1) FL 36 20
              gait0_stepping)
    as (a0 & b1 & H1 & H2 & H3 & H4).
  exists a0, b1. repeat (split; [assumption|]). exact H4.
Defined.

(** X27: halfway through the swing and halfway through the stance the
    stride plays no part, whatever the direction, the turn rate and the
    step length.  At mid-swing the knee is step_height below its stand
    angle, the ankle 0.8*step_height above, and the hip off its stand
    angle by LATERAL_STEP_ANGLE * lateral_rate (added for a left leg,
    taken off for a right leg); at mid-stance the knee and the ankle are
    at their stand angles and the hip is off by half of that, the other
    way. *)
Theorem mid_phase_pose :
  forall (self : GaitController) (l : Leg) (step_h step_l : R),
    stepping self step_h step_l ->
    exists mid_swing mid_stance : LegAngles,
      _leg_angles_swing self 0.5 l = Some mid_swing
      /\ _leg_angles_stance self 0.5 l = Some mid_stance
      /\ knee_angle mid_swing = IZR (knee (stand_angles self l)) - step_h
      /\ ankle_angle mid_swing
         = IZR (ankle (stand_angles self l)) + 0.8 * step_h
      /\ hip_angle mid_swing
         = IZR (hip (stand_angles self l))
           + lateral_sign l * LATERAL_STEP_ANGLE * lateral_rate self
      /\ knee_angle mid_stance = IZR (knee (stand_angles self l))
      /\ ankle_angle mid_stance = IZR (ankle (stand_angles self l))
      /\ hip_angle mid_stance
         = IZR (hip (stand_angles self l))
           - lateral_sign l * LATERAL_STEP_ANGLE * lateral_rate self * 0.5.
Proof.
  intros self l step_h step_l Hstep.
  destruct (swing_closed self 0.5 l step_h step_l Hstep)
    as (m & Hm & Hmh & Hmk & Hmn).
  destruct (stance_closed self 0.5 l step_h step_l Hstep)
    as (b & Hb & Hbh & Hbk & Hbn).
  exists m, b. repeat (split; [assumption|]).
  replace (0.5 * PI) with (PI / 2) in * by lra. rewrite sin_PI2 in *.
  unfold swing_fwd, stance_fwd, ANKLE_LIFT_RATIO in *.
  rewrite Hmh, Hmk, Hmn, Hbh, Hbk, Hbn.
  repeat split; lra.
Qed.

(** X27 on the rear right leg of a new controller. *)
Lemma mid_phase_pose_witness :
  exists mid_swing mid_stance : LegAngles,
    _leg_angles_swing gait0 0.5 RR = Some mid_swing
    /\ _leg_angles_stance gait0 0.5 RR = Some mid_stance
    /\ knee_angle mid_swing = 50 - 36
    /\ knee_angle mid_stance = 50.
Proof.
  destruct (mid_phase_pose gait0 RR 36 20 gait0_stepping)
    as (m & b & Hm & Hb & Hmk & _ & _ & Hbk & _).
  exists m, b. repeat (split; [assumption|]). exact Hbk.
Defined.

Lemma dir_mult_backward (self : GaitController) :
  dir_mult (with_direction self "backward") = -1.
Proof. reflexivity. Qed.

Lemma dir_mult_other (self : GaitController) (d : string) :
  d <> "backward" -> dir_mult (with_direction self d) = 1.
Proof.
  intros Hd. unfold dir_mult. simpl.
  now rewrite (bool_decide_eq_false_2 _ Hd).
Qed.

Lemma stepping_with_direction (self : GaitController) (d : string)
    (step_h step_l : R) :
  stepping self step_h step_l -> stepping (with_direction self d) step_h step_l.
Proof. exact (fun H => H). Qed.

(** X28: only the direction "backward" is special: with any other
    direction the legs move as for "forward".  Walking backward leaves
    the hip as it is at every phase, leaves the whole pose as it is at
    mid-swing and at mid-stance, and swaps the two ends of the stance
    stroke: the knee and the ankle with which a backward stance starts are
    those with which a forward stance ends, and the other way round. *)
Theorem direction_effect :
  forall (self : GaitController) (phase : R) (l : Leg) (step_h step_l : R)
         (d : string),
    stepping self step_h step_l ->
    let back := with_direction self "backward" in
    let forth := with_direction self "forward" in
    (d <> "backward" ->
     _leg_angles_swing (with_direction self d) phase l
     = _leg_angles_swing forth phase l
     /\ _leg_angles_stance (with_direction self d) phase l
        = _leg_angles_stance forth phase l)
    /\ (exists sb sf tb tf : LegAngles,
          _leg_angles_swing back phase l = Some sb
          /\ _leg_angles_swing forth phase l = Some sf
          /\ _leg_angles_stance back phase l = Some tb
          /\ _leg_angles_stance forth phase l = Some tf
          /\ hip_angle sb = hip_angle sf
          /\ hip_angle tb = hip_angle tf)
    /\ _leg_angles_swing back 0.5 l = _leg_angles_swing forth 0.5 l
    /\ _leg_angles_stance back 0.5 l = _leg_angles_stance forth 0.5 l
    /\ (exists b0 b1 f0 f1 : LegAngles,
          _leg_angles_stance back 0 l = Some b0
          /\ _leg_angles_stance back 1 l = Some b1
          /\ _leg_angles_stance forth 0 l = Some f0
          /\ _leg_angles_stance forth 1 l = Some f1
          /\ knee_angle b0 = knee_angle f1
          /\ ankle_angle b0 = ankle_angle f1
          /\ knee_angle b1 = knee_angle f0
          /\ ankle_angle b1 = ankle_angle f0).
Proof.
  intros self phase l step_h step_l d Hstep. cbv zeta.
  assert (Hfwd : dir_mult (with_direction self "forward") = 1)
    by (apply dir_mult_other; discriminate).
  pose proof (dir_mult_backward self) as Hback.
  pose proof (stepping_with_direction self "backward" _ _ Hstep) as Hsb.
  pose proof (stepping_with_direction self "forward" _ _ Hstep) as Hsf.
  split; [|split; [|split; [|split]]].
  - intros Hd. pose proof (dir_mult_other self d Hd) as Hdm.
    destruct (swing_closed _ phase l _ _ (stepping_with_direction self d _ _ Hstep))
      as (a & -> & Hah & Hak & Han).
    destruct (swing_closed _ phase l _ _ Hsf) as (b & -> & Hbh & Hbk & Hbn).
    destruct (stance_closed _ phase l _ _ (stepping_with_direction self d _ _ Hstep))
      as (a' & -> & Hah' & Hak' & Han').
    destruct (stance_closed _ phase l _ _ Hsf)
      as (b' & -> & Hbh' & Hbk' & Hbn').
    unfold swing_fwd, stance_fwd, stride_mult in *. simpl in *.
    rewrite Hdm, Hfwd in *.
    split; f_equal; apply LegAngles_eq; congruence.
  - destruct (swing_closed _ phase l _ _ Hsb) as (sb & Hsb' & Hsbh & _).
    destruct (swing_closed _ phase l _ _ Hsf) as (sf & Hsf' & Hsfh & _).
    destruct (stance_closed _ phase l _ _ Hsb) as (tb & Htb' & Htbh & _).
    destruct (stance_closed _ phase l _ _ Hsf) as (tf & Htf' & Htfh & _).
    exists sb, sf, tb, tf. repeat (split; [assumption|]).
    simpl in *. split; congruence.
  - destruct (swing_closed _ 0.5 l _ _ Hsb) as (a & -> & Hah & Hak & Han).
    destruct (swing_closed _ 0.5 l _ _ Hsf) as (b & -> & Hbh & Hbk & Hbn).
    unfold swing_fwd, stride_mult in *. simpl in *.
    rewrite Hback, Hfwd in *.
    f_equal. apply LegAngles_eq; lra.
  - destruct (stance_closed _ 0.5 l _ _ Hsb) as (a & -> & Hah & Hak & Han).
    destruct (stance_closed _ 0.5 l _ _ Hsf) as (b & -> & Hbh & Hbk & Hbn).
    unfold stance_fwd, stride_mult in *. simpl in *.
    rewrite Hback, Hfwd in *.
    f_equal. apply LegAngles_eq; lra.
  - destruct (stance_closed _ 0 l _ _ Hsb) as (b0 & Hb0 & _ & Hb0k & Hb0n).
    destruct (stance_closed _ 1 l _ _ Hsb) as (b1 & Hb1 & _ & Hb1k & Hb1n).
    destruct (stance_closed _ 0 l _ _ Hsf) as (f0 & Hf0 & _ & Hf0k & Hf0n).
    destruct (stance_closed _ 1 l _ _ Hsf) as (f1 & Hf1 & _ & Hf1k & Hf1n).
    exists b0, b1, f0, f1. repeat (split; [assumption|]).
    unfold stance_fwd, stride_mult in *. simpl in *.
    rewrite Hback, Hfwd in *.
    repeat split; lra.
Qed.

(** X28 on the front left leg of a new controller, a quarter into the
    phase: the direction "left" is "forward". *)
Lemma direction_effect_witness :
  _leg_angles_swing (with_direction gait0 "left") 0.25 FL
  = _leg_angles_swing (with_direction gait0 "forward") 0.25 FL
  /\ _leg_angles_stance (with_direction gait0 "backward") 0.5 FL
     = _leg_angles_stance (with_direction gait0 "forward") 0.5 FL.
Proof.
  destruct (direction_effect gait0 0.25 FL 36 20 "left" gait0_stepping)
    as (Hother & _ & _ & Hmid & _).
  split; [apply Hother; discriminate | exact Hmid].
Defined.

(** X29: [_interpolate] returns the target itself for a channel it has
    not seen; for a channel it has seen, it returns the value it holds
    when that is the target already, or when the speed is zero; it
    remembers what it returned for that channel, and nothing else
    changes. *)
Theorem interpolate_step :
  forall (st : Interpolation) (ch : Z) (target : R),
    let new := fst (_interpolate st ch target) in
    let st' := snd (_interpolate st ch target) in
    (_current_angles st !! ch = None -> new = target)
    /\ (forall cur : R,
           _current_angles st !! ch = Some cur ->
           (target = cur -> new = cur)
           /\ (_interp_speed st = 0 -> new = cur))
    /\ _current_angles st' !! ch = Some new
    /\ (forall other : Z, other <> ch ->
          _current_angles st' !! other = _current_angles st !! other)
    /\ _interp_speed st' = _interp_speed st.
Proof.
  intros st ch target. cbv zeta. unfold _interpolate.
  destruct (_current_angles st !! ch) as [cur|]; simpl.
  - split; [discriminate|].
    split; [intros c [= <-]; split; [intros ->; lra | intros ->; lra]|].
    split; [apply lookup_insert_eq|].
    split; [intros other Hne; now apply lookup_insert_ne | reflexivity].
  - split; [reflexivity|]. split; [discriminate|].
    split; [apply lookup_insert_eq|].
    split; [intros other Hne; now apply lookup_insert_ne | reflexivity].
Qed.

Lemma preview_stand_calls (self : GaitController) (w : Calibration.World) :
  preview_stand self w = Calibration.set_servos w (stand_calls self).
Proof.
  unfold preview_stand, stand_calls, all_legs.
  cbn [fold_left flat_map app Calibration.set_servos]. reflexivity.
Qed.

Lemma stand_calls_channels (self : GaitController) :
  Forall (fun c : Z * Z * bool => (0 <= fst (fst c) <= 11)%Z)
    (stand_calls self).
Proof. unfold stand_calls. simpl. repeat constructor; simpl; lia. Qed.

(** X30: on a robot with its board and its twelve servos answering,
    [preview_stand] sends twelve commands, the hip, knee and ankle of FL,
    FR, RL and RR in that order, each the stand angle of the joint taken
    through the calibration and clamped to [0, 180], and leaves the stand
    angles in [servo_angles]. *)
Theorem preview_stand_commands :
  forall (self : GaitController) (w : Calibration.World),
    Calibration.healthy w ->
    let w' := preview_stand self w in
    Calibration.issued w'
    = Calibration.issued w
      ++ map (fun c : Z * Z * bool =>
                (fst (fst c),
                 Calibration.actual_angle w (fst (fst c)) (snd (fst c)) true))
           (stand_calls self)
    /\ Forall Calibration.in_servo_range
         (map (fun c : Z * Z * bool =>
                 (fst (fst c),
                  Calibration.actual_angle w (fst (fst c)) (snd (fst c)) true))
            (stand_calls self))
    /\ forall l : Leg,
         Calibration.servo_angles w' !! leg_hip l
         = Some (hip (stand_angles self l))
         /\ Calibration.servo_angles w' !! leg_knee l
            = Some (knee (stand_angles self l))
         /\ Calibration.servo_angles w' !! leg_ankle l
            = Some (ankle (stand_angles self l)).
Proof.
  intros self w Hw. cbv zeta. rewrite preview_stand_calls.
  destruct (CalibrationFacts.set_servos_healthy (stand_calls self)
              (stand_calls_channels self) w Hw) as [Hissued Htable].
  split; [|split].
  - rewrite Hissued. f_equal.
  - apply Forall_forall. intros c Hc.
    apply list_elem_of_In, in_map_iff in Hc as ([[ch a] b] & <- & _).
    unfold Calibration.in_servo_range. simpl.
    apply CalibrationFacts.actual_angle_in_range.
  - intros l. rewrite Htable. unfold stand_calls. simpl.
    destruct l; simpl;
      (split; [|split]);
      rewrite ?lookup_insert_ne by lia; apply lookup_insert_eq.
Qed.

(** X30 at the lowest stand (knee bend 80) on a robot with a new
    calibration: the ankles, asked for 194, are sent to 180. *)
Lemma preview_stand_commands_witness :
  Calibration.issued (preview_stand (stand_at gait0 80) Calibration.robot0)
  = [(0, 90); (1, 10); (2, 180); (3, 90); (4, 10); (5, 180);
     (6, 90); (7, 10); (8, 180); (9, 90); (10, 10); (11, 180)]%Z.
Proof.
  rewrite (proj1 (preview_stand_commands (stand_at gait0 80) Calibration.robot0
                    CalibrationFacts.robot0_healthy)).
  vm_compute. reflexivity.
Defined.

End GaitFacts.

(** ** Foot trajectory *)
Module TrajectoryFacts.

Import Trajectory.
Local Open Scope R_scope.

(** X15: the foot path of the IK mode: the swing starts exactly where the
    stance ends, and it ends at the x and the z at which the stance
    starts; halfway through either the foot is at the neutral x; the foot
    never moves sideways and keeps the neutral height all through the
    stance; during a swing or a stance (phase within [0, 1], stride not
    negative) it stays within half a stride of the neutral x, and during
    a swing (step height not negative) it rises by at most step_height,
    reached at mid-swing. *)
Theorem foot_path_shape :
  forall (self : FootTrajectory) (phase nx ny nz : R),
    swing_position self 0 nx ny nz = stance_position self 1 nx ny nz
    /\ foot_x (swing_position self 1 nx ny nz)
       = foot_x (stance_position self 0 nx ny nz)
    /\ foot_x (swing_position self 0.5 nx ny nz) = nx
    /\ foot_x (stance_position self 0.5 nx ny nz) = nx
    /\ foot_z (swing_position self phase nx ny nz) = nz
    /\ foot_z (stance_position self phase nx ny nz) = nz
    /\ foot_y (stance_position self phase nx ny nz) = ny
    /\ foot_y (swing_position self 0.5 nx ny nz)
       = ny + step_height (config self)
    /\ (0 <= step_height (config self) -> 0 <= phase <= 1 ->
        ny <= foot_y (swing_position self phase nx ny nz)
        <= ny + step_height (config self))
    /\ (0 <= stride_length (config self) -> 0 <= phase <= 1 ->
        nx - stride_length (config self) * 0.5
        <= foot_x (swing_position self phase nx ny nz)
        <= nx + stride_length (config self) * 0.5
        /\ nx - stride_length (config self) * 0.5
           <= foot_x (stance_position self phase nx ny nz)
           <= nx + stride_length (config self) * 0.5).
Proof.
  intros self phase nx ny nz.
  unfold swing_position, stance_position, foot_x, foot_y, foot_z. simpl.
  rewrite Rmult_0_l, sin_0.
  replace (0.5 * PI) with (PI / 2) by lra. rewrite sin_PI2.
  assert (Htriple : forall a b c a' b' c' : R,
             a = a' -> b = b' -> c = c' -> (a, b, c) = (a', b', c'))
    by (intros; subst; reflexivity).
  split; [apply Htriple; lra|].
  repeat (split; [lra|]).
  split.
  - intros Hh Hphase.
    assert (HPI : 0 < PI) by apply PI_RGT_0.
    assert (Hs0 : 0 <= sin (phase * PI)) by (apply sin_ge_0; nra).
    assert (Hs1 : sin (phase * PI) <= 1) by apply SIN_bound.
    nra.
  - intros Hs Hphase. repeat split; nra.
Qed.

End TrajectoryFacts.
